(** * sft-trainer-alpaca: prompt templating, label masking and the
      training pipeline of [train]

    A shallow embedding of [src/sft-trainer-alpaca.py].  The script is one
    function, [train], with two closures ([tokenize] and
    [generate_and_tokenize_prompt]).  Everything it calls from
    [transformers], [peft], [datasets] and [torch] is outside the
    repository: those calls are kept abstract (a tokenizer is a record of
    functions, a model is the term of the library calls that built it) and
    every call that has an effect is recorded in a trace of events. *)

From Stdlib Require Import ZArith List String Ascii Bool Lia.
From Stdlib Require Import Floats.PrimFloat.
From Stdlib Require Import DecimalString DecimalZ DecimalPos.
Import ListNotations.

Set Warnings "-inexact-float".

Local Open Scope string_scope.
Local Open Scope list_scope.
Local Open Scope Z_scope.

(** ** Python values and exceptions *)

(** The exceptions the script's own expressions can raise. *)
Inductive exn : Type :=
| IndexError
| ZeroDivisionError
| AssertionError.

(** The outcome of evaluating a Python expression. *)
Inductive result (A : Type) : Type :=
| Ok (a : A)
| Raise (e : exn).

Arguments Ok {A} a.
Arguments Raise {A} e.

Module Py.

(** [len(l)] *)
Definition len {A : Type} (l : list A) : Z := Z.of_nat (List.length l).

(** [l[-1]]: the last element; [IndexError] on the empty list. *)
Definition getitem_last {A : Type} (l : list A) : result A :=
  match rev l with
  | [] => Raise IndexError
  | x :: _ => Ok x
  end.

(** [l[0]]: [IndexError] on an empty sequence. *)
Definition getitem_first {A : Type} (l : list A) : result A :=
  match l with
  | [] => Raise IndexError
  | x :: _ => Ok x
  end.

(** [[x] * n]: the empty list when [n <= 0]. *)
Definition list_mul {A : Type} (x : A) (n : Z) : list A :=
  repeat x (Z.to_nat n).

(** [l[n:]]: a negative [n] counts from the end, and the start is
    clipped to the list. *)
Definition slice_from {A : Type} (l : list A) (n : Z) : list A :=
  if n <? 0 then skipn (Z.to_nat (Z.max 0 (len l + n))) l
  else skipn (Z.to_nat n) l.

(** [a // b]: floor division; [ZeroDivisionError] when [b] is 0.
    [Z.div] rounds towards minus infinity, as Python does. *)
Definition floordiv (a b : Z) : result Z :=
  if b =? 0 then Raise ZeroDivisionError else Ok (a / b).

(** [s.endswith(suffix)] *)
Definition endswith (s suffix : string) : bool :=
  let n := String.length s in
  let k := String.length suffix in
  (k <=? n)%nat && String.eqb (substring (n - k) k s) suffix.

(** [bool(s)] for a string: the empty string is falsy. *)
Definition truthy (s : string) : bool :=
  match s with
  | EmptyString => false
  | String _ _ => true
  end.

(** [os.path.join(a, b)] on a POSIX system. *)
Definition path_join (a b : string) : string :=
  if prefix "/" b then b
  else if negb (truthy a) || endswith a "/" then (a ++ b)%string
  else (a ++ "/" ++ b)%string.

End Py.

(** ** The tokenizer and the tokenized example *)

(** What [tokenizer(prompt, truncation=True, max_length=..., padding=False,
    return_tensors=None)] returns: two plain lists. *)
Record BatchEncoding : Type := mkBatchEncoding {
  enc_input_ids : list Z;
  enc_attention_mask : list Z
}.

(** The tokenizer object of [AutoTokenizer.from_pretrained].  [call m p]
    is the call above with [max_length = m]; what it computes belongs to
    the [transformers] library.  The tokenizer is taken to define an eos
    token. *)
Record Tokenizer : Type := mkTokenizer {
  call : Z -> string -> BatchEncoding;
  eos_token_id : Z
}.

(** The dictionary [tokenize] returns: the encoding with its [labels]. *)
Record Example : Type := mkExample {
  input_ids : list Z;
  attention_mask : list Z;
  labels : list Z
}.

(** A row of the Alpaca-style dataset. *)
Record DataPoint : Type := mkDataPoint {
  instruction : string;
  input : string;
  output : string
}.

(** The sentinel the loss ignores. *)
Definition IGNORE : Z := -100.

Definition bind {A B : Type} (r : result A) (f : A -> result B) : result B :=
  match r with
  | Ok a => f a
  | Raise e => Raise e
  end.

Notation "x <- c ;; k" := (bind c (fun x => k))
  (at level 61, c at next level, right associativity).

Section Closures.

(** The variables the two closures capture from [train]. *)
Variable tokenizer : Tokenizer.
Variable cutoff_len : Z.
Variable train_on_inputs : bool.
Variable add_eos_token : bool.

(** [tokenize], lines 137-155.  The test of the [if] reads
    [result["input_ids"][-1]] first, so an empty encoding raises
    whatever the flag is. *)
Definition tokenize (prompt : string) (add_eos_token : bool) : result Example :=
  let result := call tokenizer cutoff_len prompt in
  last <- Py.getitem_last (enc_input_ids result) ;;
  let append :=
    negb (last =? eos_token_id tokenizer)
    && (Py.len (enc_input_ids result) <? cutoff_len)
    && add_eos_token in
  let ids :=
    if append then enc_input_ids result ++ [eos_token_id tokenizer]
    else enc_input_ids result in
  let mask :=
    if append then enc_attention_mask result ++ [1]
    else enc_attention_mask result in
  Ok {| input_ids := ids; attention_mask := mask; labels := ids |}.

Definition nl : string := String "010"%char EmptyString.

Definition preamble : string :=
  "Below is an instruction that describes a task, paired with an input that provides further context. Write a response that appropriately completes the request.".

(** The f-string of line 191. *)
Definition user_prompt (data_point : DataPoint) : string :=
  (preamble ++ nl ++ nl ++ "### Instruction:" ++ nl ++ instruction data_point
    ++ nl ++ nl ++ "### Input:" ++ nl ++ input data_point
    ++ nl ++ nl ++ "### Response:" ++ nl)%string.

(** The f-string of line 190. *)
Definition full_prompt (data_point : DataPoint) : string :=
  (preamble ++ nl ++ nl ++ "### Instruction:" ++ nl ++ instruction data_point
    ++ nl ++ nl ++ "### Input:" ++ nl ++ input data_point
    ++ nl ++ nl ++ "### Response:" ++ nl ++ output data_point)%string.

(** [generate_and_tokenize_prompt], lines 186-212. *)
Definition generate_and_tokenize_prompt (data_point : DataPoint) : result Example :=
  tokenized_full_prompt <- tokenize (full_prompt data_point) true ;;
  if negb train_on_inputs then
    tokenized_user_prompt <- tokenize (user_prompt data_point) add_eos_token ;;
    let user_prompt_len := Py.len (input_ids tokenized_user_prompt) in
    let user_prompt_len :=
      if add_eos_token then user_prompt_len - 1 else user_prompt_len in
    Ok {| input_ids := input_ids tokenized_full_prompt;
          attention_mask := attention_mask tokenized_full_prompt;
          labels := Py.list_mul IGNORE user_prompt_len
                    ++ Py.slice_from (labels tokenized_full_prompt) user_prompt_len |}
  else Ok tokenized_full_prompt.

(** [Dataset.map(generate_and_tokenize_prompt)]: the rows in order; the
    first exception ends the mapping. *)
Fixpoint dataset_map (rows : list DataPoint) : result (list Example) :=
  match rows with
  | [] => Ok []
  | data_point :: rest =>
      example <- generate_and_tokenize_prompt data_point ;;
      examples <- dataset_map rest ;;
      Ok (example :: examples)
  end.

End Closures.

(** ** The arguments of [train] and the objects it builds *)

Module Args.

(** The keyword arguments of [train], lines 60-85. *)
Record t : Type := mk {
  base_model : string;
  data_path : string;
  output_dir : string;
  batch_size : Z;
  micro_batch_size : Z;
  num_epochs : Z;
  learning_rate : float;
  cutoff_len : Z;
  val_set_size : Z;
  lr_scheduler : string;
  warmup_steps : Z;
  lora_r : Z;
  lora_alpha : Z;
  lora_dropout : float;
  lora_target_modules : list string;
  train_on_inputs : bool;
  add_eos_token : bool;
  group_by_length : bool;
  resume_from_checkpoint : option string
}.

(** The default values of the signature. *)
Definition default : t := {|
  base_model := "";
  data_path := "";
  output_dir := "";
  batch_size := 128;
  micro_batch_size := 8;
  num_epochs := 1;
  learning_rate := 0.0003%float;
  cutoff_len := 4096;
  val_set_size := 0;
  lr_scheduler := "cosine";
  warmup_steps := 100;
  lora_r := 16;
  lora_alpha := 16;
  lora_dropout := 0.05%float;
  lora_target_modules := ["gate_proj"; "down_proj"; "up_proj"];
  train_on_inputs := false;
  add_eos_token := false;
  group_by_length := false;
  resume_from_checkpoint := None
|}.

End Args.

Module LoraConfig.

(** The keyword arguments of [LoraConfig(...)], lines 216-222. *)
Record t : Type := mk {
  r : Z;
  lora_alpha : Z;
  target_modules : list string;
  lora_dropout : float;
  bias : string;
  task_type : string
}.

End LoraConfig.

Module TrainingArguments.

(** The keyword arguments of [transformers.TrainingArguments(...)],
    lines 288-310. *)
Record t : Type := mk {
  per_device_train_batch_size : Z;
  gradient_accumulation_steps : Z;
  warmup_steps : Z;
  num_train_epochs : Z;
  learning_rate : float;
  fp16 : bool;
  logging_steps : Z;
  optim : string;
  evaluation_strategy : string;
  save_strategy : string;
  eval_steps : option Z;
  save_steps : Z;
  lr_scheduler_type : string;
  output_dir : string;
  save_total_limit : Z;
  load_best_model_at_end : bool;
  ddp_find_unused_parameters : bool;
  group_by_length : bool;
  remove_unused_columns : bool
}.

End TrainingArguments.

(** [device_map]: the string ["auto"] or the dictionary [{"": rank}]. *)
Inductive device_map : Type :=
| device_auto
| device_of_rank (local_rank : Z).

Inductive dtype : Type :=
| float16.

(** The model object, as the term of the library calls that produced it.
    [set_peft_model_state_dict] changes the object in place; the term
    names the file [torch.load] read the weights from. *)
Inductive Model : Type :=
| from_pretrained (base_model : string) (load_in_8bit : bool)
                  (torch_dtype : dtype) (dm : device_map)
| prepare_model_for_int8_training (model : Model)
| get_peft_model (model : Model) (config : LoraConfig.t)
| set_peft_model_state_dict (model : Model) (checkpoint_name : string)
| torch_compile (model : Model).

(** The value of the local variable [resume_from_checkpoint]: [None], a
    path, or the [False] line 240 assigns. *)
Inductive resume : Type :=
| resume_None
| resume_path (path : string)
| resume_False.

(** What a [print] call writes. *)
Inductive printed : Type :=
| printed_arguments (a : Args.t)
| printed_world_size (world_size : Z)
| printed_device_map (dm : device_map)
| printed_gradient_accumulation_steps (n : Z)
| printed_token_ids (eos : Z)
| printed_restarting_from (checkpoint_name : string)
| printed_checkpoint_not_found (checkpoint_name : string)
| printed_first_sample (example : Example)
| printed_resume_from_checkpoint (r : resume).

(** The calls with an effect outside the interpreter, in the order [train]
    makes them. *)
Inductive event : Type :=
| print (p : printed)
| call_model_from_pretrained (base_model : string) (load_in_8bit : bool)
                             (torch_dtype : dtype) (dm : device_map)
| call_tokenizer_from_pretrained (base_model : string)
| call_prepare_model_for_int8_training (model : Model)
| call_get_peft_model (model : Model) (config : LoraConfig.t)
| call_load_dataset (path : string) (data_files : option string)
| call_torch_load (checkpoint_name : string)
| call_set_peft_model_state_dict (model : Model) (checkpoint_name : string)
| call_print_trainable_parameters (model : Model)
| call_train_test_split (test_size : Z)
| call_map (examples : list Example)
| set_model_parallel (model : Model)
| call_Trainer (model : Model) (train_dataset : list Example)
               (eval_dataset : option (list Example))
               (args : TrainingArguments.t)
| set_use_cache_False (model : Model)
| call_torch_compile (model : Model)
| call_trainer_train (resume_from_checkpoint : resume)
| call_save_pretrained (model : Model) (output_dir : string)
| call_torch_save (path : string)
| call_tokenizer_save_pretrained (output_dir : string).

(** What [train] reads from outside: the environment variables (integers
    when set, as the launcher sets them), the file system, the libraries'
    answers. *)
Record World : Type := mkWorld {
  LOCAL_RANK : option Z;
  WORLD_SIZE : option Z;
  tokenizer_of : string -> Tokenizer;
  dataset_of : string -> option string -> list DataPoint;
  shuffle : list DataPoint -> list DataPoint;
  train_test_split : Z -> list DataPoint -> list DataPoint * list DataPoint;
  path_exists : string -> bool;
  cuda_device_count : Z;
  torch_version_ge_2 : bool;
  platform_win32 : bool
}.

(** ** Traced computations *)

(** A computation of [train]: the events made so far and the outcome. *)
Definition traced (A : Type) : Type := (list event * result A)%type.

Definition ret {A : Type} (a : A) : traced A := ([], Ok a).

Definition raise {A : Type} (e : exn) : traced A := ([], Raise e).

Definition emit (e : event) : traced unit := ([e], Ok tt).

Definition lift {A : Type} (r : result A) : traced A := ([], r).

Definition tbind {A B : Type} (m : traced A) (f : A -> traced B) : traced B :=
  match m with
  | (t, Ok a) => (t ++ fst (f a), snd (f a))
  | (t, Raise e) => (t, Raise e)
  end.

Declare Scope traced_scope.
Delimit Scope traced_scope with traced.

Notation "x <- c ;; k" := (tbind c (fun x => k))
  (at level 61, c at next level, right associativity) : traced_scope.
Notation "' p <- c ;; k" := (tbind c (fun x => match x with p => k end))
  (at level 61, p pattern, c at next level, right associativity) : traced_scope.
Notation "c ;; k" := (tbind c (fun _ => k))
  (at level 61, right associativity) : traced_scope.

(** ** [train], lines 60-329 *)

Section Train.

Import Args.
Local Open Scope traced_scope.

Variable a : Args.t.
Variable w : World.

(** [int(os.environ.get("LOCAL_RANK", 0))] and
    [int(os.environ.get("LOCAL_RANK") or 0)]. *)
Definition local_rank : Z :=
  match LOCAL_RANK w with
  | Some n => n
  | None => 0
  end.

(** [int(os.environ.get("WORLD_SIZE", 1))], line 114. *)
Definition world_size : Z :=
  match WORLD_SIZE w with
  | Some n => n
  | None => 1
  end.

Definition ddp : bool := negb (world_size =? 1).

(** Lines 86-110: the arguments are printed by the process of local
    rank 0, then [base_model] is asserted. *)
Definition print_arguments : traced unit :=
  (if local_rank =? 0 then emit (print (printed_arguments a)) else ret tt) ;;
  if Py.truthy (base_model a) then ret tt else raise AssertionError.

(** Lines 111-121: [gradient_accumulation_steps] and [device_map]. *)
Definition accumulation_steps : traced (device_map * Z) :=
  gradient_accumulation_steps <-
    lift (Py.floordiv (batch_size a) (micro_batch_size a)) ;;
  let device_map := device_auto in
  emit (print (printed_world_size world_size)) ;;
  if ddp then
    let device_map := device_of_rank local_rank in
    emit (print (printed_device_map device_map)) ;;
    gradient_accumulation_steps <-
      lift (Py.floordiv gradient_accumulation_steps world_size) ;;
    emit (print (printed_gradient_accumulation_steps gradient_accumulation_steps)) ;;
    ret (device_map, gradient_accumulation_steps)
  else ret (device_map, gradient_accumulation_steps).

(** Lines 123-135: the base model and its tokenizer.  The bos and pad ids
    are only printed, and [padding_side] plays no part in a call with
    [padding=False]. *)
Definition load_model (dm : device_map) : traced (Model * Tokenizer) :=
  emit (call_model_from_pretrained (base_model a) true float16 dm) ;;
  let model := from_pretrained (base_model a) true float16 dm in
  emit (call_tokenizer_from_pretrained (base_model a)) ;;
  let tokenizer := tokenizer_of w (base_model a) in
  emit (print (printed_token_ids (eos_token_id tokenizer))) ;;
  ret (model, tokenizer).

(** Lines 216-222. *)
Definition config : LoraConfig.t := {|
  LoraConfig.r := lora_r a;
  LoraConfig.lora_alpha := lora_alpha a;
  LoraConfig.target_modules := lora_target_modules a;
  LoraConfig.lora_dropout := lora_dropout a;
  LoraConfig.bias := "none";
  LoraConfig.task_type := "CAUSAL_LM"
|}.

(** Lines 214-224: the adapter. *)
Definition attach_adapter (model : Model) : traced Model :=
  emit (call_prepare_model_for_int8_training model) ;;
  let model := prepare_model_for_int8_training model in
  emit (call_get_peft_model model config) ;;
  ret (get_peft_model model config).

(** Lines 226-229: [data["train"]] of the loaded dataset. *)
Definition load_data : traced (list DataPoint) :=
  if Py.endswith (data_path a) ".json" || Py.endswith (data_path a) ".jsonl" then
    emit (call_load_dataset "json" (Some (data_path a))) ;;
    ret (dataset_of w "json" (Some (data_path a)))
  else
    emit (call_load_dataset (data_path a) None) ;;
    ret (dataset_of w (data_path a) None).

(** The local variable [resume_from_checkpoint] on entry. *)
Definition resume_argument : resume :=
  match resume_from_checkpoint a with
  | Some path => resume_path path
  | None => resume_None
  end.

(** Lines 231-249: the weights of a checkpoint, when one is named. *)
Definition resume_checkpoint (model : Model) : traced (Model * resume) :=
  match resume_from_checkpoint a with
  | Some path =>
      if Py.truthy path then
        let checkpoint_name := Py.path_join path "pytorch_model.bin" in
        let '(checkpoint_name, resume_from_checkpoint) :=
          if negb (path_exists w checkpoint_name)
          then (Py.path_join path "adapter_model.bin", resume_False)
          else (checkpoint_name, resume_path path) in
        if path_exists w checkpoint_name then
          emit (print (printed_restarting_from checkpoint_name)) ;;
          emit (call_torch_load checkpoint_name) ;;
          emit (call_set_peft_model_state_dict model checkpoint_name) ;;
          ret (set_peft_model_state_dict model checkpoint_name,
               resume_from_checkpoint)
        else
          emit (print (printed_checkpoint_not_found checkpoint_name)) ;;
          ret (model, resume_from_checkpoint)
      else ret (model, resume_path path)
  | None => ret (model, resume_None)
  end.

(** Lines 253-277: the two datasets.  Without a validation set the first
    sample is printed, and [train_data[0]] raises on an empty dataset. *)
Definition tokenize_datasets (tokenizer : Tokenizer) (data : list DataPoint)
  : traced (list Example * option (list Example)) :=
  let generate_and_tokenize_prompt :=
    dataset_map tokenizer (cutoff_len a) (train_on_inputs a) (add_eos_token a) in
  if val_set_size a >? 0 then
    emit (call_train_test_split (val_set_size a)) ;;
    let train_val := train_test_split w (val_set_size a) data in
    train_data <- lift (generate_and_tokenize_prompt (shuffle w (fst train_val))) ;;
    emit (call_map train_data) ;;
    val_data <- lift (generate_and_tokenize_prompt (shuffle w (snd train_val))) ;;
    emit (call_map val_data) ;;
    ret (train_data, Some val_data)
  else
    train_data <- lift (generate_and_tokenize_prompt (shuffle w data)) ;;
    emit (call_map train_data) ;;
    first <- lift (Py.getitem_first train_data) ;;
    emit (print (printed_first_sample first)) ;;
    ret (train_data, None).

(** Lines 288-310. *)
Definition training_arguments (gradient_accumulation_steps : Z)
  : TrainingArguments.t := {|
  TrainingArguments.per_device_train_batch_size := micro_batch_size a;
  TrainingArguments.gradient_accumulation_steps := gradient_accumulation_steps;
  TrainingArguments.warmup_steps := warmup_steps a;
  TrainingArguments.num_train_epochs := num_epochs a;
  TrainingArguments.learning_rate := learning_rate a;
  TrainingArguments.fp16 := true;
  TrainingArguments.logging_steps := 1;
  TrainingArguments.optim := "adamw_torch";
  TrainingArguments.evaluation_strategy :=
    if val_set_size a >? 0 then "steps" else "no";
  TrainingArguments.save_strategy := "steps";
  TrainingArguments.eval_steps :=
    if val_set_size a >? 0 then Some 200 else None;
  TrainingArguments.save_steps := 1000;
  TrainingArguments.lr_scheduler_type := lr_scheduler a;
  TrainingArguments.output_dir := output_dir a;
  TrainingArguments.save_total_limit := 2;
  TrainingArguments.load_best_model_at_end :=
    if val_set_size a >? 0 then true else false;
  TrainingArguments.ddp_find_unused_parameters := false;
  TrainingArguments.group_by_length := group_by_length a;
  TrainingArguments.remove_unused_columns := true
|}.

(** Lines 279-316: the trainer is built around the model object.  The
    data collator is a constant of the call and is left out. *)
Definition make_trainer (model : Model) (train_data : list Example)
    (val_data : option (list Example)) (gradient_accumulation_steps : Z)
  : traced unit :=
  (if negb ddp && (cuda_device_count w >? 1)
   then emit (set_model_parallel model) else ret tt) ;;
  emit (call_Trainer model train_data val_data
          (training_arguments gradient_accumulation_steps)) ;;
  emit (set_use_cache_False model).

(** Lines 318-329: the training loop and the final save. *)
Definition run_and_save (model : Model) (resume_from_checkpoint : resume)
  : traced unit :=
  model <-
    (if torch_version_ge_2 w && negb (platform_win32 w)
     then emit (call_torch_compile model) ;; ret (torch_compile model)
     else ret model) ;;
  emit (print (printed_resume_from_checkpoint resume_from_checkpoint)) ;;
  emit (call_trainer_train resume_from_checkpoint) ;;
  emit (call_save_pretrained model (output_dir a)) ;;
  emit (call_torch_save (Py.path_join (output_dir a) "pytorch_model.bin")) ;;
  emit (call_tokenizer_save_pretrained (output_dir a)).

(** The body of [train], in the order of the source. *)
Definition train : traced unit :=
  print_arguments ;;
  '(device_map, gradient_accumulation_steps) <- accumulation_steps ;;
  '(model, tokenizer) <- load_model device_map ;;
  model <- attach_adapter model ;;
  data <- load_data ;;
  '(model, resume_from_checkpoint) <- resume_checkpoint model ;;
  emit (call_print_trainable_parameters model) ;;
  '(train_data, val_data) <- tokenize_datasets tokenizer data ;;
  make_trainer model train_data val_data gradient_accumulation_steps ;;
  run_and_save model resume_from_checkpoint.

End Train.

(** ** Names for two expressions of the closures *)

(** The condition of line 145, on an encoding that ends in [last]. *)
Definition appends_eos (tokenizer : Tokenizer) (cutoff_len : Z)
    (ids : list Z) (last : Z) (add_eos_token : bool) : bool :=
  negb (last =? eos_token_id tokenizer)
  && (Py.len ids <? cutoff_len)
  && add_eos_token.

(** The value of [user_prompt_len] after line 205. *)
Definition masked_len (user : Example) (add_eos_token : bool) : Z :=
  if add_eos_token then Py.len (input_ids user) - 1
  else Py.len (input_ids user).

(** ** Concrete inputs *)

(** A byte-level tokenizer without special tokens: one token per
    character, cut at [max_length], eos id 0.  The empty prompt has the
    empty encoding, as with the tokenizers of the GPT-2 family. *)
Fixpoint bytes_of (s : string) : list Z :=
  match s with
  | EmptyString => []
  | String c rest => Z.of_nat (nat_of_ascii c) :: bytes_of rest
  end.

Definition byte_tokenizer : Tokenizer := {|
  call := fun max_length prompt =>
    let ids := firstn (Z.to_nat max_length) (bytes_of prompt) in
    {| enc_input_ids := ids; enc_attention_mask := map (fun _ => 1) ids |};
  eos_token_id := 0
|}.

Definition row1 : DataPoint :=
  {| instruction := "Add the numbers."; input := "1 2"; output := "3" |}.

Definition row2 : DataPoint :=
  {| instruction := "Say hi."; input := ""; output := "hi" |}.

(** A single process, no checkpoint on disk, a dataset of two rows; the
    split holds out the first [test_size] rows. *)
Definition demo_world : World := {|
  LOCAL_RANK := None;
  WORLD_SIZE := None;
  tokenizer_of := fun _ => byte_tokenizer;
  dataset_of := fun _ _ => [row1; row2];
  shuffle := fun rows => rev rows;
  train_test_split := fun test_size rows =>
    (skipn (Z.to_nat test_size) rows, firstn (Z.to_nat test_size) rows);
  path_exists := fun _ => false;
  cuda_device_count := 1;
  torch_version_ge_2 := true;
  platform_win32 := false
|}.

Definition demo_args : Args.t := {|
  Args.base_model := "huggyllama/llama-7b";
  Args.data_path := "alpaca.json";
  Args.output_dir := "out";
  Args.batch_size := 128;
  Args.micro_batch_size := 8;
  Args.num_epochs := 1;
  Args.learning_rate := 0.0003%float;
  Args.cutoff_len := 4096;
  Args.val_set_size := 0;
  Args.lr_scheduler := "cosine";
  Args.warmup_steps := 100;
  Args.lora_r := 16;
  Args.lora_alpha := 16;
  Args.lora_dropout := 0.05%float;
  Args.lora_target_modules := ["gate_proj"; "down_proj"; "up_proj"];
  Args.train_on_inputs := false;
  Args.add_eos_token := false;
  Args.group_by_length := false;
  Args.resume_from_checkpoint := None
|}.

(** ** The pipeline of the specification *)

(** The calls that make up the stages (b) to (f) of the pipeline. *)
Inductive step : Type :=
| step_load_base_model
| step_load_tokenizer
| step_prepare_int8
| step_get_peft_model
| step_load_dataset
| step_tokenize_dataset
| step_trainer_train
| step_save_adapter
| step_save_placeholder
| step_save_tokenizer.

Definition step_of (e : event) : option step :=
  match e with
  | call_model_from_pretrained _ _ _ _ => Some step_load_base_model
  | call_tokenizer_from_pretrained _ => Some step_load_tokenizer
  | call_prepare_model_for_int8_training _ => Some step_prepare_int8
  | call_get_peft_model _ _ => Some step_get_peft_model
  | call_load_dataset _ _ => Some step_load_dataset
  | call_map _ => Some step_tokenize_dataset
  | call_trainer_train _ => Some step_trainer_train
  | call_save_pretrained _ _ => Some step_save_adapter
  | call_torch_save _ => Some step_save_placeholder
  | call_tokenizer_save_pretrained _ => Some step_save_tokenizer
  | _ => None
  end.

(** The steps of a trace, in order. *)
Fixpoint pipeline (trace : list event) : list step :=
  match trace with
  | [] => []
  | e :: rest =>
      match step_of e with
      | Some s => s :: pipeline rest
      | None => pipeline rest
      end
  end.

(** One mapping per dataset: the validation split, when there is one, is
    tokenized after the training split. *)
Definition tokenize_steps (a : Args.t) : list step :=
  if Args.val_set_size a >? 0
  then [step_tokenize_dataset; step_tokenize_dataset]
  else [step_tokenize_dataset].

(** The order the specification gives: load, adapter, data, training
    loop, save. *)
Definition pipeline_order (a : Args.t) : list step :=
  [step_load_base_model; step_load_tokenizer;
   step_prepare_int8; step_get_peft_model;
   step_load_dataset]
  ++ tokenize_steps a
  ++ [step_trainer_train;
      step_save_adapter; step_save_placeholder; step_save_tokenizer].

Definition is_print_arguments (e : event) : bool :=
  match e with
  | print (printed_arguments _) => true
  | _ => false
  end.

(** The Alpaca template as the specification describes it: the fixed
    sentence, then the sections Instruction, Input and Response, each a
    header line followed by the field, separated by blank lines. *)
Definition alpaca_section (header body : string) : string :=
  ("### " ++ header ++ ":" ++ nl ++ body)%string.

Definition alpaca_template (instruction input response : string) : string :=
  String.concat (nl ++ nl)%string
    [preamble;
     alpaca_section "Instruction" instruction;
     alpaca_section "Input" input;
     alpaca_section "Response" response].

(** The rows the training dataset is made of: the shuffled train side
    of the split when a validation set is asked for, the shuffled
    dataset otherwise (lines 253-264). *)
Definition training_rows (a : Args.t) (w : World) (data : list DataPoint)
  : list DataPoint :=
  if Args.val_set_size a >? 0
  then shuffle w (fst (train_test_split w (Args.val_set_size a) data))
  else shuffle w data.

(** The rows [load_data] returns (lines 226-229). *)
Definition loaded_rows (a : Args.t) (w : World) : list DataPoint :=
  if Py.endswith (Args.data_path a) ".json" || Py.endswith (Args.data_path a) ".jsonl"
  then dataset_of w "json" (Some (Args.data_path a))
  else dataset_of w (Args.data_path a) None.

(** The model after line 224, loaded on the device map [dm]. *)
Definition adapted_model (a : Args.t) (dm : device_map) : Model :=
  get_peft_model
    (prepare_model_for_int8_training
       (from_pretrained (Args.base_model a) true float16 dm))
    (config a).

(** The events of [train] after [accumulation_steps] has returned the
    device map [dm] and the step count [g]. *)
Definition trace_after_steps (a : Args.t) (w : World) (dm : device_map) (g : Z)
  : list event :=
  let tokenizer := tokenizer_of w (Args.base_model a) in
  fst (load_model a w dm)
  ++ fst (attach_adapter a (from_pretrained (Args.base_model a) true float16 dm))
  ++ fst (load_data a w)
  ++ fst (resume_checkpoint a w (adapted_model a dm))
  ++ match snd (resume_checkpoint a w (adapted_model a dm)) with
     | Raise _ => []
     | Ok (model, r) =>
         [call_print_trainable_parameters model]
         ++ fst (tokenize_datasets a w tokenizer (loaded_rows a w))
         ++ match snd (tokenize_datasets a w tokenizer (loaded_rows a w)) with
            | Raise _ => []
            | Ok (train_data, val_data) =>
                fst (make_trainer a w model train_data val_data g)
                ++ fst (run_and_save a w model r)
            end
     end.

(** What a run needs in order to return: a base model is named, the two
    divisors are not zero, every row tokenizes to at least one token with
    and without its response, shuffling and splitting do not invent rows,
    and there is a first sample to print when no validation set is asked
    for. *)
Definition run_conditions (a : Args.t) (w : World) : Prop :=
  let tokenizer := tokenizer_of w (Args.base_model a) in
  let data := loaded_rows a w in
  Py.truthy (Args.base_model a) = true
  /\ Args.micro_batch_size a <> 0
  /\ world_size w <> 0
  /\ (forall dp, In dp data ->
        enc_input_ids (call tokenizer (Args.cutoff_len a) (full_prompt dp)) <> []
        /\ enc_input_ids (call tokenizer (Args.cutoff_len a) (user_prompt dp)) <> [])
  /\ (forall rows,
        In rows [data; fst (train_test_split w (Args.val_set_size a) data);
                       snd (train_test_split w (Args.val_set_size a) data)] ->
        forall dp, In dp (shuffle w rows) -> In dp data)
  /\ (Args.val_set_size a <= 0 -> shuffle w data <> []).

(** The second worker of a two-process launch. *)
Definition worker_world : World := {|
  LOCAL_RANK := Some 1;
  WORLD_SIZE := Some 2;
  tokenizer_of := tokenizer_of demo_world;
  dataset_of := dataset_of demo_world;
  shuffle := shuffle demo_world;
  train_test_split := train_test_split demo_world;
  path_exists := path_exists demo_world;
  cuda_device_count := 2;
  torch_version_ge_2 := true;
  platform_win32 := false
|}.

(** A world whose disk holds the adapter of [ckpt] and no full
    checkpoint. *)
Definition adapter_world : World := {|
  LOCAL_RANK := None;
  WORLD_SIZE := None;
  tokenizer_of := tokenizer_of demo_world;
  dataset_of := dataset_of demo_world;
  shuffle := shuffle demo_world;
  train_test_split := train_test_split demo_world;
  path_exists := fun path => String.eqb path "ckpt/adapter_model.bin";
  cuda_device_count := 1;
  torch_version_ge_2 := true;
  platform_win32 := false
|}.

(** [a] with other values for four of its arguments. *)
Definition with_sizes (a : Args.t) (batch_size micro_batch_size val_set_size : Z)
    (resume_from_checkpoint : option string) : Args.t := {|
  Args.base_model := Args.base_model a;
  Args.data_path := Args.data_path a;
  Args.output_dir := Args.output_dir a;
  Args.batch_size := batch_size;
  Args.micro_batch_size := micro_batch_size;
  Args.num_epochs := Args.num_epochs a;
  Args.learning_rate := Args.learning_rate a;
  Args.cutoff_len := Args.cutoff_len a;
  Args.val_set_size := val_set_size;
  Args.lr_scheduler := Args.lr_scheduler a;
  Args.warmup_steps := Args.warmup_steps a;
  Args.lora_r := Args.lora_r a;
  Args.lora_alpha := Args.lora_alpha a;
  Args.lora_dropout := Args.lora_dropout a;
  Args.lora_target_modules := Args.lora_target_modules a;
  Args.train_on_inputs := Args.train_on_inputs a;
  Args.add_eos_token := Args.add_eos_token a;
  Args.group_by_length := Args.group_by_length a;
  Args.resume_from_checkpoint := resume_from_checkpoint
|}.

(** The datasets handed to [transformers.Trainer] in a trace. *)
Fixpoint trainer_datasets (trace : list event)
  : list (list Example * option (list Example)) :=
  match trace with
  | [] => []
  | call_Trainer _ train_dataset eval_dataset _ :: rest =>
      (train_dataset, eval_dataset) :: trainer_datasets rest
  | _ :: rest => trainer_datasets rest
  end.

(** The two calls that read a checkpoint into the model. *)
Definition is_checkpoint_call (e : event) : bool :=
  match e with
  | call_torch_load _ => true
  | call_set_peft_model_state_dict _ _ => true
  | _ => false
  end.

(** A tokenizer whose merges spend four tokens on a prompt that ends in a
    newline and two on any other, cut at [max_length], eos id 0: the
    prompt without the response is longer, in tokens, than the full
    prompt. *)
Definition merging_tokenizer : Tokenizer := {|
  call := fun max_length prompt =>
    let ids :=
      firstn (Z.to_nat max_length)
        (if Py.endswith prompt nl then [11; 12; 13; 14] else [11; 12]) in
    {| enc_input_ids := ids; enc_attention_mask := map (fun _ => 1) ids |};
  eos_token_id := 0
|}.

(** The world of [demo_world] with WORLD_SIZE set to 0. *)
Definition zero_world : World := {|
  LOCAL_RANK := Some 0;
  WORLD_SIZE := Some 0;
  tokenizer_of := tokenizer_of demo_world;
  dataset_of := dataset_of demo_world;
  shuffle := shuffle demo_world;
  train_test_split := train_test_split demo_world;
  path_exists := path_exists demo_world;
  cuda_device_count := 1;
  torch_version_ge_2 := true;
  platform_win32 := false
|}.

(** ** Rows as dictionaries, lines 187-189 *)

(** A row as [Dataset.map] hands it over: a dictionary from column names
    to strings.  A column can be missing. *)
Definition Row : Type := list (string * string).

(** [data_point[key]]: [None] stands for KeyError. *)
Fixpoint getitem (data_point : Row) (key : string) : option string :=
  match data_point with
  | [] => None
  | (k, v) :: rest => if String.eqb k key then Some v else getitem rest key
  end.

(** What a call on a row ends in: an example, an exception of the
    closures, or the KeyError of a missing column. *)
Inductive outcome (A : Type) : Type :=
| Returned (x : A)
| Raised (e : exn)
| RaisedKeyError (key : string).

Arguments Returned {A} x.
Arguments Raised {A} e.
Arguments RaisedKeyError {A} key.

(** [generate_and_tokenize_prompt] on a dictionary: the three lookups of
    lines 187-189, in that order, then lines 190-212. *)
Definition generate_and_tokenize_prompt_row (tokenizer : Tokenizer) (cutoff_len : Z)
    (train_on_inputs add_eos_token : bool) (data_point : Row) : outcome Example :=
  match getitem data_point "instruction" with
  | None => RaisedKeyError "instruction"
  | Some instruction =>
      match getitem data_point "input" with
      | None => RaisedKeyError "input"
      | Some input =>
          match getitem data_point "output" with
          | None => RaisedKeyError "output"
          | Some output =>
              match generate_and_tokenize_prompt tokenizer cutoff_len
                      train_on_inputs add_eos_token
                      {| instruction := instruction; input := input;
                         output := output |} with
              | Ok example => Returned example
              | Raise e => Raised e
              end
          end
      end
  end.

(** [Dataset.map] over dictionaries: the first exception ends it. *)
Fixpoint dataset_map_rows (tokenizer : Tokenizer) (cutoff_len : Z)
    (train_on_inputs add_eos_token : bool) (rows : list Row)
  : outcome (list Example) :=
  match rows with
  | [] => Returned []
  | data_point :: rest =>
      match generate_and_tokenize_prompt_row tokenizer cutoff_len
              train_on_inputs add_eos_token data_point with
      | Returned example =>
          match dataset_map_rows tokenizer cutoff_len train_on_inputs
                  add_eos_token rest with
          | Returned examples => Returned (example :: examples)
          | Raised e => Raised e
          | RaisedKeyError key => RaisedKeyError key
          end
      | Raised e => Raised e
      | RaisedKeyError key => RaisedKeyError key
      end
  end.

(** The three columns of a row, when it has them all. *)
Definition columns (data_point : Row) : option DataPoint :=
  match getitem data_point "instruction",
        getitem data_point "input",
        getitem data_point "output" with
  | Some instruction, Some input, Some output =>
      Some {| instruction := instruction; input := input; output := output |}
  | _, _, _ => None
  end.

(** ** The two callbacks, lines 27-57 *)

(** [str(n)] for an int, as an f-string formats it. *)
Definition str_of_int (n : Z) : string :=
  NilZero.string_of_int (Z.to_int n).

(** What the callbacks do outside the interpreter: the library calls of
    [train], and the print of line 52. *)
Inductive callback_event : Type :=
| library_call (e : event)
| print_loading_best (best_model_checkpoint : option string)
                     (best_metric : option float).

(** [os.path.join] refuses [None]. *)
Inductive callback_error : Type :=
| TypeError.

Section Callbacks.

(** [PREFIX_CHECKPOINT_DIR] is a constant of [transformers.trainer_utils];
    the control object is returned as it came. *)
Variable PREFIX_CHECKPOINT_DIR : string.
Variable TrainerControl : Type.

(** Line 35. *)
Definition checkpoint_folder (output_dir : string) (global_step : Z) : string :=
  Py.path_join output_dir
    (PREFIX_CHECKPOINT_DIR ++ "-" ++ str_of_int global_step)%string.

(** [SavePeftModelCallback.on_save], lines 28-41, on [args.output_dir],
    [state.global_step], [control] and [kwargs["model"]]. *)
Definition on_save (output_dir : string) (global_step : Z)
    (control : TrainerControl) (model : Model) : list event * TrainerControl :=
  let checkpoint_folder := checkpoint_folder output_dir global_step in
  let pytorch_model_path := Py.path_join checkpoint_folder "pytorch_model.bin" in
  ([call_save_pretrained model checkpoint_folder;
    call_torch_save pytorch_model_path],
   control).

(** [LoadBestPeftModelCallback.on_train_end], lines 45-57, on
    [state.best_model_checkpoint], [state.best_metric], [control] and
    [kwargs["model"]].  The print comes first; joining [None] raises. *)
Definition on_train_end (best_model_checkpoint : option string)
    (best_metric : option float) (control : TrainerControl) (model : Model)
  : list callback_event * (TrainerControl + callback_error) :=
  match best_model_checkpoint with
  | None =>
      ([print_loading_best best_model_checkpoint best_metric], inr TypeError)
  | Some path =>
      let best_model_path := Py.path_join path "adapter_model.bin" in
      ([print_loading_best best_model_checkpoint best_metric;
        library_call (call_torch_load best_model_path);
        library_call (call_set_peft_model_state_dict model best_model_path)],
       inl control)
  end.

End Callbacks.

(** The library calls among the events of a callback. *)
Fixpoint library_calls (events : list callback_event) : list event :=
  match events with
  | [] => []
  | library_call e :: rest => e :: library_calls rest
  | print_loading_best _ _ :: rest => library_calls rest
  end.

(** The files a trace writes with [torch.save]. *)
Fixpoint torch_saved (trace : list event) : list string :=
  match trace with
  | [] => []
  | call_torch_save path :: rest => path :: torch_saved rest
  | _ :: rest => torch_saved rest
  end.

(** [a] resumed from the directory [path]. *)
Definition resumed_from (a : Args.t) (path : string) : Args.t :=
  with_sizes a (Args.batch_size a) (Args.micro_batch_size a)
    (Args.val_set_size a) (Some path).

(** Proves [Forall P l] on a list written out, each element by [eauto]. *)
Ltac list_all :=
  repeat first [apply Forall_nil | apply Forall_cons; [solve [eauto 6]|]].

(** Finds in a list written out the first element that matches. *)
Ltac find_event := repeat first [left; reflexivity | right].

(** ** Lists and slices *)

Lemma getitem_last_app {A : Type} (front : list A) (x : A) :
  Py.getitem_last (front ++ [x]) = Ok x.
Proof.
  unfold Py.getitem_last. rewrite rev_app_distr. reflexivity.
Qed.

Lemma nonempty_snoc {A : Type} (l : list A) :
  l <> [] -> exists front x, l = front ++ [x].
Proof.
  intros H. destruct (exists_last H) as [front [x E]]. eauto.
Qed.

Lemma len_app {A : Type} (l k : list A) :
  Py.len (l ++ k) = Py.len l + Py.len k.
Proof.
  unfold Py.len. rewrite length_app. lia.
Qed.

Lemma len_nonneg {A : Type} (l : list A) : 0 <= Py.len l.
Proof. unfold Py.len. lia. Qed.

Lemma slice_from_nonneg {A : Type} (l : list A) (n : Z) :
  0 <= n -> Py.slice_from l n = skipn (Z.to_nat n) l.
Proof.
  intros H. unfold Py.slice_from.
  destruct (Z.ltb_spec n 0); [lia | reflexivity].
Qed.

Lemma nth_error_mask_prefix {A : Type} (x : A) (n : nat) (l : list A) (i : nat) :
  (i < n)%nat -> nth_error (repeat x n ++ skipn n l) i = Some x.
Proof.
  intros H. rewrite nth_error_app1 by (rewrite repeat_length; exact H).
  apply nth_error_repeat. exact H.
Qed.

Lemma nth_error_mask_suffix {A : Type} (x : A) (n : nat) (l : list A) (i : nat) :
  (n <= i)%nat -> nth_error (repeat x n ++ skipn n l) i = nth_error l i.
Proof.
  intros H. rewrite nth_error_app2 by (rewrite repeat_length; exact H).
  rewrite repeat_length, nth_error_skipn. f_equal. lia.
Qed.

Lemma length_mask {A : Type} (x : A) (n : nat) (l : list A) :
  (n <= List.length l)%nat ->
  List.length (repeat x n ++ skipn n l) = List.length l.
Proof.
  intros H. rewrite length_app, repeat_length, length_skipn. lia.
Qed.

(** ** [tokenize] *)

Section TokenizeFacts.

Variable tokenizer : Tokenizer.
Variable cutoff_len : Z.

(** On an encoding with a last token, [tokenize] returns, and what it
    returns is decided by [appends_eos]. *)
Lemma tokenize_snoc (prompt : string) (b : bool) (front : list Z) (last : Z) :
  enc_input_ids (call tokenizer cutoff_len prompt) = front ++ [last] ->
  tokenize tokenizer cutoff_len prompt b =
  let enc := call tokenizer cutoff_len prompt in
  if appends_eos tokenizer cutoff_len (enc_input_ids enc) last b
  then Ok {| input_ids := enc_input_ids enc ++ [eos_token_id tokenizer];
             attention_mask := enc_attention_mask enc ++ [1];
             labels := enc_input_ids enc ++ [eos_token_id tokenizer] |}
  else Ok {| input_ids := enc_input_ids enc;
             attention_mask := enc_attention_mask enc;
             labels := enc_input_ids enc |}.
Proof.
  intros E. unfold tokenize, appends_eos. cbv zeta.
  rewrite E at 1. rewrite getitem_last_app. cbn [bind].
  destruct (negb (last =? eos_token_id tokenizer)
            && (Py.len (enc_input_ids (call tokenizer cutoff_len prompt)) <? cutoff_len)
            && b); reflexivity.
Qed.

(** [tokenize] returns exactly on the non-empty encodings. *)
Lemma tokenize_total (prompt : string) (b : bool) :
  enc_input_ids (call tokenizer cutoff_len prompt) <> [] ->
  exists r, tokenize tokenizer cutoff_len prompt b = Ok r.
Proof.
  intros H. destruct (nonempty_snoc _ H) as [front [last E]].
  rewrite (tokenize_snoc prompt b front last E). cbv zeta.
  destruct (appends_eos _ _ _ last b); eauto.
Qed.

Lemma tokenize_empty (prompt : string) (b : bool) :
  enc_input_ids (call tokenizer cutoff_len prompt) = [] ->
  tokenize tokenizer cutoff_len prompt b = Raise IndexError.
Proof.
  intros E. unfold tokenize. cbv zeta. rewrite E. reflexivity.
Qed.

(** What a returned example looks like. *)
Lemma tokenize_Ok (prompt : string) (b : bool) (r : Example) :
  tokenize tokenizer cutoff_len prompt b = Ok r ->
  let ids := enc_input_ids (call tokenizer cutoff_len prompt) in
  labels r = input_ids r
  /\ (input_ids r = ids \/ input_ids r = ids ++ [eos_token_id tokenizer])
  /\ ids <> [].
Proof.
  intros H ids.
  assert (N : ids <> []).
  { intros E. rewrite (tokenize_empty prompt b E) in H. discriminate. }
  destruct (nonempty_snoc _ N) as [front [last E]].
  rewrite (tokenize_snoc prompt b front last E) in H. cbv zeta in H.
  destruct (appends_eos _ _ _ last b); injection H as <-; cbn; auto.
Qed.

(** With [add_eos_token] false nothing is appended. *)
Lemma tokenize_false_Ok (prompt : string) (r : Example) :
  tokenize tokenizer cutoff_len prompt false = Ok r ->
  input_ids r = enc_input_ids (call tokenizer cutoff_len prompt).
Proof.
  intros H.
  destruct (tokenize_Ok prompt false r H) as [_ [_ N]].
  destruct (nonempty_snoc _ N) as [front [last E]].
  rewrite (tokenize_snoc prompt false front last E) in H. cbv zeta in H.
  unfold appends_eos in H. rewrite andb_false_r in H.
  injection H as <-. reflexivity.
Qed.

End TokenizeFacts.

(** ** [generate_and_tokenize_prompt] *)

Section MaskingFacts.

Variable tokenizer : Tokenizer.
Variable cutoff_len : Z.

(** The masked length never exceeds the length of the raw encoding of
    the prompt without the response. *)
Lemma masked_len_bounds (add_eos_token : bool) (prompt : string) (user : Example) :
  tokenize tokenizer cutoff_len prompt add_eos_token = Ok user ->
  0 <= masked_len user add_eos_token
       <= Py.len (enc_input_ids (call tokenizer cutoff_len prompt)).
Proof.
  intros U. unfold masked_len.
  destruct (tokenize_Ok _ _ _ _ _ U) as [_ [E N]].
  assert (1 <= Py.len (enc_input_ids (call tokenizer cutoff_len prompt))).
  { unfold Py.len. destruct (enc_input_ids (call tokenizer cutoff_len prompt));
      [congruence | cbn; lia]. }
  destruct add_eos_token.
  - destruct E as [E|E]; rewrite E; try rewrite len_app;
      change (Py.len [eos_token_id tokenizer]) with 1; lia.
  - rewrite (tokenize_false_Ok _ _ _ _ U). lia.
Qed.

(** With [train_on_inputs] false the function returns once both
    prompts have tokenized, with the labels of lines 207-211. *)
Lemma generate_masked (add_eos_token : bool) (dp : DataPoint) (full user : Example) :
  tokenize tokenizer cutoff_len (full_prompt dp) true = Ok full ->
  tokenize tokenizer cutoff_len (user_prompt dp) add_eos_token = Ok user ->
  generate_and_tokenize_prompt tokenizer cutoff_len false add_eos_token dp =
  Ok {| input_ids := input_ids full;
        attention_mask := attention_mask full;
        labels := repeat IGNORE (Z.to_nat (masked_len user add_eos_token))
                  ++ skipn (Z.to_nat (masked_len user add_eos_token)) (input_ids full) |}.
Proof.
  intros F U. unfold generate_and_tokenize_prompt. rewrite F. cbn [bind negb].
  rewrite U. cbn [bind].
  destruct (tokenize_Ok _ _ _ _ _ F) as [L _]. rewrite L.
  pose proof (masked_len_bounds _ _ _ U) as [P _].
  fold (masked_len user add_eos_token).
  rewrite (slice_from_nonneg _ _ P). reflexivity.
Qed.

End MaskingFacts.

(** C5 (as amended): for every prompt whose truncated encoding is not
    empty, [tokenize] returns; given that the tokenizer truncates to
    [cutoff_len] and returns a mask as long as the ids, the returned
    [input_ids] has at most [cutoff_len] entries and [attention_mask] has
    the same length; and one eos id (with attention value 1) is appended if
    and only if [add_eos_token] is true, the encoding is strictly shorter
    than [cutoff_len] and its last token is not the eos id. *)
Theorem tokenize_length_and_eos
    (tokenizer : Tokenizer) (cutoff_len : Z) (prompt : string) (add_eos_token : bool) :
  let enc := call tokenizer cutoff_len prompt in
  enc_input_ids enc <> [] ->
  Py.len (enc_input_ids enc) <= cutoff_len ->
  List.length (enc_attention_mask enc) = List.length (enc_input_ids enc) ->
  exists r front last,
    tokenize tokenizer cutoff_len prompt add_eos_token = Ok r
    /\ enc_input_ids enc = front ++ [last]
    /\ Py.len (input_ids r) <= cutoff_len
    /\ List.length (attention_mask r) = List.length (input_ids r)
    /\ (add_eos_token = true /\ Py.len (enc_input_ids enc) < cutoff_len
        /\ last <> eos_token_id tokenizer ->
        input_ids r = enc_input_ids enc ++ [eos_token_id tokenizer]
        /\ attention_mask r = enc_attention_mask enc ++ [1])
    /\ (~ (add_eos_token = true /\ Py.len (enc_input_ids enc) < cutoff_len
           /\ last <> eos_token_id tokenizer) ->
        input_ids r = enc_input_ids enc
        /\ attention_mask r = enc_attention_mask enc).
Proof.
  intros enc N T M.
  destruct (nonempty_snoc _ N) as [front [last E]].
  pose proof (tokenize_snoc tokenizer cutoff_len prompt add_eos_token front last E) as R.
  cbv zeta in R. fold enc in R. unfold appends_eos in R.
  destruct (Z.eqb_spec last (eos_token_id tokenizer)) as [Q|Q];
    destruct (Z.ltb_spec (Py.len (enc_input_ids enc)) cutoff_len) as [L|L];
    destruct add_eos_token; cbn [negb andb] in R;
    eexists; exists front, last; (split; [exact R|]); (split; [exact E|]); cbn;
    try rewrite len_app; try rewrite !length_app; rewrite ?M;
    change (Py.len [eos_token_id tokenizer]) with 1;
    repeat split; try lia; try tauto; try (intros [? [? ?]]; try congruence; try lia);
    try congruence.
Qed.

Lemma tokenize_length_and_eos_witness :
  exists r,
    tokenize byte_tokenizer 8 "hi" true = Ok r /\ input_ids r = [104; 105; 0].
Proof.
  destruct (tokenize_length_and_eos byte_tokenizer 8 "hi" true)
    as [r [front [last [R [E [_ [_ [A _]]]]]]]].
  - vm_compute. discriminate.
  - vm_compute. discriminate.
  - reflexivity.
  - exists r. split; [exact R|].
    apply A. vm_compute in E.
    change [104; 105] with ([104] ++ [105]) in E.
    apply app_inj_tail in E. destruct E as [_ <-].
    repeat split; vm_compute; congruence.
Defined.

(** C5 (as stated) fails on a prompt with an empty encoding: line 146
    reads the last token before anything else. *)
Lemma tokenize_empty_prompt_raises :
  tokenize byte_tokenizer 4096 "" true = Raise IndexError
  /\ tokenize byte_tokenizer 4096 "" false = Raise IndexError.
Proof. split; reflexivity. Qed.

(** C1: with [train_on_inputs] false, the first [user_prompt_len] labels
    are -100, where [user_prompt_len] is the tokenized length of the
    prompt without the response, less one when [add_eos_token] is true; the
    labels after them are the token ids of the tokenized full prompt at the
    same positions. *)
Theorem labels_mask_the_prompt
    (tokenizer : Tokenizer) (cutoff_len : Z) (add_eos_token : bool) (dp : DataPoint) :
  enc_input_ids (call tokenizer cutoff_len (full_prompt dp)) <> [] ->
  enc_input_ids (call tokenizer cutoff_len (user_prompt dp)) <> [] ->
  exists full user r,
    tokenize tokenizer cutoff_len (full_prompt dp) true = Ok full
    /\ tokenize tokenizer cutoff_len (user_prompt dp) add_eos_token = Ok user
    /\ generate_and_tokenize_prompt tokenizer cutoff_len false add_eos_token dp = Ok r
    /\ input_ids r = input_ids full
    /\ let user_prompt_len :=
         Py.len (input_ids user) - (if add_eos_token then 1 else 0) in
       0 <= user_prompt_len
       /\ (forall i, 0 <= i < user_prompt_len ->
                     nth_error (labels r) (Z.to_nat i) = Some (-100))
       /\ (forall i, user_prompt_len <= i ->
                     nth_error (labels r) (Z.to_nat i)
                     = nth_error (input_ids full) (Z.to_nat i)).
Proof.
  intros NF NU.
  destruct (tokenize_total tokenizer cutoff_len _ true NF) as [full F].
  destruct (tokenize_total tokenizer cutoff_len _ add_eos_token NU) as [user U].
  exists full, user. eexists.
  split; [exact F|]. split; [exact U|].
  split; [exact (generate_masked _ _ _ _ _ _ F U)|].
  split; [reflexivity|]. cbv zeta.
  replace (Py.len (input_ids user) - (if add_eos_token then 1 else 0))
    with (masked_len user add_eos_token)
    by (unfold masked_len; destruct add_eos_token; lia).
  pose proof (masked_len_bounds _ _ _ _ _ U) as [P _].
  split; [exact P|]. cbn [labels]. split; intros i Hi.
  - apply nth_error_mask_prefix. lia.
  - apply nth_error_mask_suffix. lia.
Qed.

Lemma labels_mask_the_prompt_witness :
  exists r,
    generate_and_tokenize_prompt byte_tokenizer 4096 false true row1 = Ok r
    /\ nth_error (labels r) 0 = Some (-100).
Proof.
  destruct (labels_mask_the_prompt byte_tokenizer 4096 true row1)
    as [full [user [r [_ [U [R [_ [_ [M _]]]]]]]]].
  - vm_compute. discriminate.
  - vm_compute. discriminate.
  - exists r. split; [exact R|].
    apply (M 0). vm_compute in U. injection U as <-.
    vm_compute. split; [discriminate | reflexivity].
Defined.

(** C2 (as amended): for every example whose two prompts tokenize, and
    every value of the two flags, the labels are as many as the input ids
    when [train_on_inputs] is true, and the greater of [user_prompt_len]
    and the number of input ids when it is false; so they are as many as
    the input ids whenever [user_prompt_len] does not exceed the number of
    input ids, which is so whenever the prompt without the response has no
    more tokens than the full prompt. *)
Theorem labels_length_is_input_length
    (tokenizer : Tokenizer) (cutoff_len : Z)
    (train_on_inputs add_eos_token : bool) (dp : DataPoint) :
  enc_input_ids (call tokenizer cutoff_len (full_prompt dp)) <> [] ->
  enc_input_ids (call tokenizer cutoff_len (user_prompt dp)) <> [] ->
  exists r user,
    generate_and_tokenize_prompt tokenizer cutoff_len train_on_inputs add_eos_token dp
    = Ok r
    /\ tokenize tokenizer cutoff_len (user_prompt dp) add_eos_token = Ok user
    /\ let user_prompt_len :=
         Py.len (input_ids user) - (if add_eos_token then 1 else 0) in
       (train_on_inputs = true ->
        List.length (labels r) = List.length (input_ids r))
       /\ (train_on_inputs = false ->
           List.length (labels r)
           = Nat.max (Z.to_nat user_prompt_len) (List.length (input_ids r)))
       /\ (user_prompt_len <= Py.len (input_ids r) ->
           List.length (labels r) = List.length (input_ids r))
       /\ ((List.length (enc_input_ids (call tokenizer cutoff_len (user_prompt dp)))
            <= List.length (enc_input_ids (call tokenizer cutoff_len (full_prompt dp))))%nat ->
           List.length (labels r) = List.length (input_ids r)).
Proof.
  intros NF NU.
  destruct (tokenize_total tokenizer cutoff_len _ true NF) as [full F].
  destruct (tokenize_total tokenizer cutoff_len _ add_eos_token NU) as [user U].
  destruct (tokenize_Ok _ _ _ _ _ F) as [L [S _]].
  pose proof (masked_len_bounds _ _ _ _ _ U) as [P Q].
  destruct train_on_inputs.
  - exists full, user. split; [|split; [exact U|]].
    + unfold generate_and_tokenize_prompt. rewrite F. reflexivity.
    + cbv zeta. rewrite L. repeat split; try reflexivity. discriminate.
  - eexists. exists user.
    split; [exact (generate_masked _ _ _ _ _ _ F U)|]. split; [exact U|].
    cbv zeta. cbn [labels input_ids].
    replace (Py.len (input_ids user) - (if add_eos_token then 1 else 0))
      with (masked_len user add_eos_token)
      by (unfold masked_len; destruct add_eos_token; lia).
    rewrite length_app, repeat_length, length_skipn.
    repeat split; intros H; try discriminate; unfold Py.len in *; try lia.
    assert (List.length (enc_input_ids (call tokenizer cutoff_len (full_prompt dp)))
            <= List.length (input_ids full))%nat
      by (destruct S as [S|S]; rewrite S; [|rewrite length_app]; lia).
    lia.
Qed.

Lemma labels_length_is_input_length_witness :
  exists r,
    generate_and_tokenize_prompt byte_tokenizer 4096 false true row1 = Ok r
    /\ List.length (labels r) = List.length (input_ids r).
Proof.
  destruct (labels_length_is_input_length byte_tokenizer 4096 false true row1)
    as [r [user [G [_ [_ [_ [_ E]]]]]]].
  - vm_compute. discriminate.
  - vm_compute. discriminate.
  - exists r. split; [exact G|]. apply E. vm_compute. repeat constructor.
Defined.

(** C2 (as stated) fails when the prompt without the response has more
    tokens than the full prompt: line 207 writes [user_prompt_len] times
    -100 and the slice of line 209 is empty, so there are four labels for
    three input ids. *)
Lemma labels_longer_than_input_ids :
  exists r,
    generate_and_tokenize_prompt merging_tokenizer 4096 false false row1 = Ok r
    /\ input_ids r = [11; 12; 0]
    /\ labels r = [-100; -100; -100; -100].
Proof. eexists. repeat split; reflexivity. Qed.

(** C3: with [train_on_inputs] true the returned example is the one
    [tokenize] made of the full prompt, and its labels are its input ids,
    position by position. *)
Theorem labels_copy_input_ids
    (tokenizer : Tokenizer) (cutoff_len : Z) (add_eos_token : bool) (dp : DataPoint) :
  enc_input_ids (call tokenizer cutoff_len (full_prompt dp)) <> [] ->
  exists r,
    generate_and_tokenize_prompt tokenizer cutoff_len true add_eos_token dp = Ok r
    /\ tokenize tokenizer cutoff_len (full_prompt dp) true = Ok r
    /\ labels r = input_ids r
    /\ forall i, nth_error (labels r) i = nth_error (input_ids r) i.
Proof.
  intros NF.
  destruct (tokenize_total tokenizer cutoff_len _ true NF) as [full F].
  destruct (tokenize_Ok _ _ _ _ _ F) as [L _].
  exists full. split; [|split; [exact F|split; [exact L|]]].
  - unfold generate_and_tokenize_prompt. rewrite F. reflexivity.
  - intros i. rewrite L. reflexivity.
Qed.

Lemma labels_copy_input_ids_witness :
  exists r,
    generate_and_tokenize_prompt byte_tokenizer 4096 true false row1 = Ok r
    /\ labels r = input_ids r.
Proof.
  destruct (labels_copy_input_ids byte_tokenizer 4096 false row1)
    as [r [R [_ [L _]]]].
  - vm_compute. discriminate.
  - exists r. split; assumption.
Defined.

(** ** Traced computations: the trace and the outcome of a bind *)

Section TracedFacts.

Context {A B : Type}.
Variable m : traced A.
Variable f : A -> traced B.

Lemma fst_tbind :
  fst (tbind m f)
  = fst m ++ match snd m with
             | Ok x => fst (f x)
             | Raise _ => []
             end.
Proof.
  destruct m as [t [x|e]]; cbn; [reflexivity | now rewrite app_nil_r].
Qed.

Lemma snd_tbind :
  snd (tbind m f)
  = match snd m with
    | Ok x => snd (f x)
    | Raise e => Raise e
    end.
Proof. destruct m as [t [x|e]]; reflexivity. Qed.

End TracedFacts.

Lemma pipeline_app (t u : list event) :
  pipeline (t ++ u) = pipeline t ++ pipeline u.
Proof.
  induction t as [|e t IH]; cbn; [reflexivity|].
  destruct (step_of e); cbn; now rewrite IH.
Qed.

Lemma pipeline_no_step (t : list event) :
  Forall (fun e => step_of e = None) t -> pipeline t = [].
Proof.
  induction 1 as [|e t E _ IH]; cbn; [reflexivity|]. now rewrite E.
Qed.

(** ** The blocks of [train] *)

Section BlockFacts.

Variable a : Args.t.
Variable w : World.

Lemma print_arguments_run :
  print_arguments a w
  = (if local_rank w =? 0 then [print (printed_arguments a)] else [],
     if Py.truthy (Args.base_model a) then Ok tt else Raise AssertionError).
Proof.
  unfold print_arguments.
  destruct (local_rank w =? 0), (Py.truthy (Args.base_model a)); reflexivity.
Qed.

(** The outcome of lines 111-121, without the prints. *)
Lemma accumulation_steps_outcome :
  snd (accumulation_steps a w)
  = (g <- Py.floordiv (Args.batch_size a) (Args.micro_batch_size a) ;;
     if ddp w
     then g' <- Py.floordiv g (world_size w) ;; Ok (device_of_rank (local_rank w), g')
     else Ok (device_auto, g)).
Proof.
  unfold accumulation_steps, Py.floordiv, lift.
  destruct (Args.micro_batch_size a =? 0); [reflexivity|].
  destruct (ddp w); [|reflexivity].
  destruct (world_size w =? 0); reflexivity.
Qed.

Lemma accumulation_steps_prints :
  Forall (fun e => exists p, e = print p /\ forall x, p <> printed_arguments x)
         (fst (accumulation_steps a w)).
Proof.
  unfold accumulation_steps, Py.floordiv, lift.
  destruct (Args.micro_batch_size a =? 0); [constructor|].
  destruct (ddp w); cbn.
  - destruct (world_size w =? 0); cbn;
      repeat (constructor; [eexists; split; [reflexivity | discriminate]|]);
      constructor.
  - repeat (constructor; [eexists; split; [reflexivity | discriminate]|]).
    constructor.
Qed.

Lemma load_model_run (dm : device_map) :
  load_model a w dm
  = ([call_model_from_pretrained (Args.base_model a) true float16 dm;
      call_tokenizer_from_pretrained (Args.base_model a);
      print (printed_token_ids (eos_token_id (tokenizer_of w (Args.base_model a))))],
     Ok (from_pretrained (Args.base_model a) true float16 dm,
         tokenizer_of w (Args.base_model a))).
Proof. reflexivity. Qed.

Lemma attach_adapter_run (dm : device_map) :
  attach_adapter a (from_pretrained (Args.base_model a) true float16 dm)
  = ([call_prepare_model_for_int8_training
        (from_pretrained (Args.base_model a) true float16 dm);
      call_get_peft_model
        (prepare_model_for_int8_training
           (from_pretrained (Args.base_model a) true float16 dm))
        (config a)],
     Ok (adapted_model a dm)).
Proof. reflexivity. Qed.

Lemma load_data_run :
  exists path data_files,
    load_data a w = ([call_load_dataset path data_files], Ok (loaded_rows a w)).
Proof.
  unfold load_data, loaded_rows.
  destruct (Py.endswith (Args.data_path a) ".json"
            || Py.endswith (Args.data_path a) ".jsonl");
    do 2 eexists; reflexivity.
Qed.

(** The checkpoint block never raises, and its events are two prints
    and the two calls that load the weights. *)
Lemma resume_checkpoint_returns (model : Model) :
  exists model' r, snd (resume_checkpoint a w model) = Ok (model', r).
Proof.
  unfold resume_checkpoint.
  destruct (Args.resume_from_checkpoint a) as [path|]; [|cbn; eauto].
  destruct (Py.truthy path); [|cbn; eauto].
  destruct (negb (path_exists w (Py.path_join path "pytorch_model.bin")));
    match goal with
    | |- context [if path_exists w ?c then _ else _] =>
        destruct (path_exists w c)
    end; cbn; eauto.
Qed.

Lemma resume_checkpoint_no_step (model : Model) :
  Forall (fun e => step_of e = None /\ is_print_arguments e = false)
         (fst (resume_checkpoint a w model)).
Proof.
  unfold resume_checkpoint.
  destruct (Args.resume_from_checkpoint a) as [path|]; [|constructor].
  destruct (Py.truthy path); [|constructor].
  destruct (negb (path_exists w (Py.path_join path "pytorch_model.bin")));
    match goal with
    | |- context [if path_exists w ?c then _ else _] =>
        destruct (path_exists w c)
    end; cbn; repeat constructor.
Qed.

Lemma make_trainer_run (model : Model) (train_data : list Example)
    (val_data : option (list Example)) (g : Z) :
  exists pre,
    make_trainer a w model train_data val_data g
    = (pre ++ [call_Trainer model train_data val_data (training_arguments a g);
               set_use_cache_False model],
       Ok tt)
    /\ (pre = [] \/ pre = [set_model_parallel model]).
Proof.
  unfold make_trainer.
  destruct (negb (ddp w) && (cuda_device_count w >? 1)).
  - exists [set_model_parallel model]. split; [reflexivity | auto].
  - exists []. split; [reflexivity | auto].
Qed.

Lemma run_and_save_run (model : Model) (r : resume) :
  exists pre model',
    run_and_save a w model r
    = (pre ++ [print (printed_resume_from_checkpoint r);
               call_trainer_train r;
               call_save_pretrained model' (Args.output_dir a);
               call_torch_save (Py.path_join (Args.output_dir a) "pytorch_model.bin");
               call_tokenizer_save_pretrained (Args.output_dir a)],
       Ok tt)
    /\ ((pre = [] /\ model' = model)
        \/ (pre = [call_torch_compile model] /\ model' = torch_compile model)).
Proof.
  unfold run_and_save.
  destruct (torch_version_ge_2 w && negb (platform_win32 w)).
  - exists [call_torch_compile model], (torch_compile model).
    split; [reflexivity | auto].
  - exists [], model. split; [reflexivity | auto].
Qed.

End BlockFacts.

(** ** The whole of [train] *)

Section TrainFacts.

Variable a : Args.t.
Variable w : World.

Let tokenizer := tokenizer_of w (Args.base_model a).

Lemma train_trace :
  fst (train a w)
  = fst (print_arguments a w)
    ++ match snd (print_arguments a w) with
       | Raise _ => []
       | Ok _ =>
           fst (accumulation_steps a w)
           ++ match snd (accumulation_steps a w) with
              | Raise _ => []
              | Ok (dm, g) => trace_after_steps a w dm g
              end
       end.
Proof.
  unfold train. rewrite fst_tbind.
  destruct (snd (print_arguments a w)) as [[]|e0]; [|reflexivity].
  rewrite fst_tbind.
  destruct (snd (accumulation_steps a w)) as [[dm g]|e1]; [|reflexivity].
  unfold trace_after_steps. cbv zeta.
  rewrite load_model_run. cbn [tbind fst snd].
  rewrite attach_adapter_run. cbn [tbind fst snd].
  destruct (load_data_run a w) as [path [files ->]]. cbn [tbind fst snd].
  fold tokenizer.
  destruct (resume_checkpoint a w (adapted_model a dm)) as [t3 [[m2 r2]|e3]];
    cbn [tbind fst snd emit]; [|now rewrite ?app_nil_r].
  destruct (tokenize_datasets a w tokenizer (loaded_rows a w)) as [t4 [[td vd]|e4]];
    cbn [tbind fst snd]; [|now rewrite ?app_nil_r].
  destruct (make_trainer_run a w m2 td vd g) as [pre [-> _]].
  cbn [tbind fst snd].
  repeat (rewrite <- ?app_assoc; cbn [app]). reflexivity.
Qed.

Lemma train_outcome :
  snd (train a w)
  = match snd (print_arguments a w) with
    | Raise e => Raise e
    | Ok _ =>
        match snd (accumulation_steps a w) with
        | Raise e => Raise e
        | Ok (dm, g) =>
            match snd (tokenize_datasets a w tokenizer (loaded_rows a w)) with
            | Raise e => Raise e
            | Ok _ => Ok tt
            end
        end
    end.
Proof.
  unfold train. rewrite snd_tbind.
  destruct (snd (print_arguments a w)) as [[]|e0]; [|reflexivity].
  rewrite snd_tbind.
  destruct (snd (accumulation_steps a w)) as [[dm g]|e1]; [|reflexivity].
  rewrite load_model_run. cbn [tbind fst snd].
  rewrite attach_adapter_run. cbn [tbind fst snd].
  destruct (load_data_run a w) as [path [files ->]]. cbn [tbind fst snd].
  fold tokenizer.
  destruct (resume_checkpoint_returns a w (adapted_model a dm)) as [m2 [r2 R]].
  destruct (resume_checkpoint a w (adapted_model a dm)) as [t3 o3].
  cbn in R. subst o3. cbn [tbind fst snd emit].
  destruct (tokenize_datasets a w tokenizer (loaded_rows a w)) as [t4 [[td vd]|e4]];
    cbn [tbind fst snd]; [|reflexivity].
  destruct (make_trainer_run a w m2 td vd g) as [pre [-> _]].
  cbn [tbind fst snd].
  destruct (run_and_save_run a w m2 r2) as [pre' [m' [-> _]]]. reflexivity.
Qed.

End TrainFacts.

(** ** The datasets *)

Section DatasetFacts.

Variable tokenizer : Tokenizer.
Variable cutoff_len : Z.
Variable train_on_inputs add_eos_token : bool.

Let generate := generate_and_tokenize_prompt tokenizer cutoff_len
                  train_on_inputs add_eos_token.
Let map_rows := dataset_map tokenizer cutoff_len train_on_inputs add_eos_token.

(** A mapping that returns has one example per row, in order. *)
Lemma dataset_map_Ok (rows : list DataPoint) (examples : list Example) :
  map_rows rows = Ok examples ->
  Forall2 (fun dp ex => generate dp = Ok ex) rows examples.
Proof.
  revert examples. induction rows as [|dp rows IH]; intros examples H.
  - injection H as <-. constructor.
  - cbn in H. fold generate in H.
    destruct (generate dp) as [ex|e] eqn:G; [|discriminate].
    cbn [bind] in H. fold map_rows in H.
    destruct (map_rows rows) as [exs|e] eqn:M; [|discriminate].
    injection H as <-. constructor; [exact G | now apply IH].
Qed.

(** The mapping returns when every row does. *)
Lemma dataset_map_total (rows : list DataPoint) :
  (forall dp, In dp rows -> exists ex, generate dp = Ok ex) ->
  exists examples, map_rows rows = Ok examples.
Proof.
  induction rows as [|dp rows IH]; intros H.
  - exists []. reflexivity.
  - destruct (H dp (or_introl eq_refl)) as [ex G].
    destruct IH as [exs M]; [intros; apply H; now right|].
    exists (ex :: exs). cbn. fold generate map_rows. rewrite G. cbn [bind].
    rewrite M. reflexivity.
Qed.

End DatasetFacts.

Section TokenizeDatasetsFacts.

Variable a : Args.t.
Variable w : World.
Variable tokenizer : Tokenizer.
Variable data : list DataPoint.

Let map_rows := dataset_map tokenizer (Args.cutoff_len a)
                  (Args.train_on_inputs a) (Args.add_eos_token a).

Lemma tokenize_datasets_Ok (train_data : list Example)
    (val_data : option (list Example)) :
  snd (tokenize_datasets a w tokenizer data) = Ok (train_data, val_data) ->
  map_rows (training_rows a w data) = Ok train_data
  /\ pipeline (fst (tokenize_datasets a w tokenizer data)) = tokenize_steps a
  /\ (if Args.val_set_size a >? 0
      then exists v,
          val_data = Some v
          /\ map_rows (shuffle w (snd (train_test_split w (Args.val_set_size a) data)))
             = Ok v
      else val_data = None /\ train_data <> []).
Proof.
  unfold tokenize_datasets, training_rows, tokenize_steps. fold map_rows.
  destruct (Args.val_set_size a >? 0).
  - cbn [tbind emit fst snd lift app].
    destruct (map_rows (shuffle w (fst _))) as [td|e]; cbn; [|discriminate].
    destruct (map_rows (shuffle w (snd _))) as [vd|e]; cbn; [|discriminate].
    intros H. injection H as <- <-. eauto.
  - cbn [tbind emit fst snd lift app].
    destruct (map_rows (shuffle w data)) as [td|e]; cbn; [|discriminate].
    destruct td as [|ex td]; cbn; [discriminate|].
    intros H. injection H as <- <-. repeat split. discriminate.
Qed.

(** Whatever happens, the block makes a prefix of its steps. *)
Lemma tokenize_datasets_prefix :
  exists k, (k <= List.length (tokenize_steps a))%nat
            /\ pipeline (fst (tokenize_datasets a w tokenizer data))
               = firstn k (tokenize_steps a).
Proof.
  unfold tokenize_datasets, tokenize_steps. fold map_rows.
  destruct (Args.val_set_size a >? 0).
  - cbn [tbind emit fst snd lift app].
    destruct (map_rows (shuffle w (fst _))) as [td|e]; cbn;
      [|exists 0%nat; split; [lia | reflexivity]].
    destruct (map_rows (shuffle w (snd _))) as [vd|e]; cbn;
      [exists 2%nat | exists 1%nat]; (split; [lia | reflexivity]).
  - cbn [tbind emit fst snd lift app].
    destruct (map_rows (shuffle w data)) as [td|e]; cbn;
      [|exists 0%nat; split; [lia | reflexivity]].
    destruct td as [|ex td]; cbn; exists 1%nat; (split; [lia | reflexivity]).
Qed.

(** The events of the block. *)
Lemma tokenize_datasets_events :
  Forall (fun e => (exists ex, e = print (printed_first_sample ex))
                   \/ (exists n, e = call_train_test_split n)
                   \/ (exists l, e = call_map l))
         (fst (tokenize_datasets a w tokenizer data)).
Proof.
  unfold tokenize_datasets. fold map_rows.
  destruct (Args.val_set_size a >? 0).
  - cbn [tbind emit fst snd lift app].
    destruct (map_rows (shuffle w (fst _))) as [td|e]; cbn;
      [|list_all].
    destruct (map_rows (shuffle w (snd _))) as [vd|e]; cbn; list_all.
  - cbn [tbind emit fst snd lift app].
    destruct (map_rows (shuffle w data)) as [td|e]; cbn; [|constructor].
    destruct td as [|ex td]; cbn; list_all.
Qed.

(** The block returns when the mappings do and, without a validation
    set, the training set is not empty. *)
Lemma tokenize_datasets_returns :
  (forall dp, In dp data ->
              exists ex, generate_and_tokenize_prompt tokenizer (Args.cutoff_len a)
                           (Args.train_on_inputs a) (Args.add_eos_token a) dp = Ok ex) ->
  (forall rows, In rows [data; fst (train_test_split w (Args.val_set_size a) data);
                               snd (train_test_split w (Args.val_set_size a) data)] ->
                forall dp, In dp (shuffle w rows) -> In dp data) ->
  (Args.val_set_size a <= 0 -> shuffle w data <> []) ->
  exists train_data val_data,
    snd (tokenize_datasets a w tokenizer data) = Ok (train_data, val_data).
Proof.
  intros G S N.
  assert (T : forall rows,
             In rows [data; fst (train_test_split w (Args.val_set_size a) data);
                            snd (train_test_split w (Args.val_set_size a) data)] ->
             exists exs, map_rows (shuffle w rows) = Ok exs).
  { intros rows Hr. apply dataset_map_total. intros dp Hd.
    apply G. exact (S rows Hr dp Hd). }
  unfold tokenize_datasets. fold map_rows.
  destruct (Z.gtb_spec (Args.val_set_size a) 0) as [V|V].
  - destruct (T (fst (train_test_split w (Args.val_set_size a) data))) as [td Etd];
      [cbn; auto|].
    destruct (T (snd (train_test_split w (Args.val_set_size a) data))) as [vd Evd];
      [cbn; auto|].
    cbn [tbind emit fst snd lift app]. rewrite Etd. cbn. rewrite Evd. cbn. eauto.
  - destruct (T data) as [td Etd]; [cbn; auto|].
    cbn [tbind emit fst snd lift app]. rewrite Etd. cbn.
    destruct td as [|ex td]; cbn; [|eauto].
    exfalso. apply (N V).
    apply dataset_map_Ok in Etd. inversion Etd. reflexivity.
Qed.

End TokenizeDatasetsFacts.

(** ** Runs of [train] *)

Lemma filter_none {A : Type} (f : A -> bool) (l : list A) :
  Forall (fun x => f x = false) l -> filter f l = [].
Proof.
  induction 1 as [|x l E _ IH]; cbn; [reflexivity|]. now rewrite E.
Qed.

Section RunFacts.

Variable a : Args.t.
Variable w : World.

Let tokenizer := tokenizer_of w (Args.base_model a).
Let datasets := tokenize_datasets a w tokenizer (loaded_rows a w).

(** The trace after [accumulation_steps], block by block. *)
Lemma trace_after_steps_shape (dm : device_map) (g : Z) :
  exists path files t3 model r,
    resume_checkpoint a w (adapted_model a dm) = (t3, Ok (model, r))
    /\ trace_after_steps a w dm g
       = [call_model_from_pretrained (Args.base_model a) true float16 dm;
          call_tokenizer_from_pretrained (Args.base_model a);
          print (printed_token_ids (eos_token_id tokenizer));
          call_prepare_model_for_int8_training
            (from_pretrained (Args.base_model a) true float16 dm);
          call_get_peft_model
            (prepare_model_for_int8_training
               (from_pretrained (Args.base_model a) true float16 dm))
            (config a);
          call_load_dataset path files]
         ++ t3
         ++ [call_print_trainable_parameters model]
         ++ fst datasets
         ++ match snd datasets with
            | Raise _ => []
            | Ok (train_data, val_data) =>
                fst (make_trainer a w model train_data val_data g)
                ++ fst (run_and_save a w model r)
            end.
Proof.
  destruct (load_data_run a w) as [path [files L]].
  destruct (resume_checkpoint_returns a w (adapted_model a dm)) as [model [r R]].
  exists path, files, (fst (resume_checkpoint a w (adapted_model a dm))), model, r.
  split.
  - destruct (resume_checkpoint a w (adapted_model a dm)) as [t3 o3].
    cbn in R. now subst o3.
  - unfold trace_after_steps. cbv zeta.
    rewrite load_model_run, attach_adapter_run, L, R. reflexivity.
Qed.

(** The steps after [accumulation_steps]. *)
Lemma pipeline_after_steps (dm : device_map) (g : Z) :
  pipeline (trace_after_steps a w dm g)
  = [step_load_base_model; step_load_tokenizer;
     step_prepare_int8; step_get_peft_model; step_load_dataset]
    ++ pipeline (fst datasets)
    ++ match snd datasets with
       | Raise _ => []
       | Ok _ => [step_trainer_train; step_save_adapter;
                  step_save_placeholder; step_save_tokenizer]
       end.
Proof.
  destruct (trace_after_steps_shape dm g) as [path [files [t3 [model [r [R ->]]]]]].
  pose proof (resume_checkpoint_no_step a w (adapted_model a dm)) as N.
  rewrite R in N. cbn [fst] in N.
  rewrite !pipeline_app. cbn [pipeline step_of app].
  rewrite (pipeline_no_step t3)
    by (eapply Forall_impl; [|exact N]; now intros e [? _]).
  cbn [app]. do 5 f_equal.
  destruct (snd datasets) as [[td vd]|e]; [|reflexivity].
  destruct (make_trainer_run a w model td vd g) as [pre [-> P]].
  destruct (run_and_save_run a w model r) as [pre' [model' [-> P']]].
  cbn [fst]. rewrite !pipeline_app.
  destruct P as [-> | ->], P' as [[-> _] | [-> _]]; reflexivity.
Qed.

(** The arguments are not printed after [accumulation_steps]. *)
Lemma no_print_arguments_after_steps (dm : device_map) (g : Z) :
  filter is_print_arguments (trace_after_steps a w dm g) = [].
Proof.
  destruct (trace_after_steps_shape dm g) as [path [files [t3 [model [r [R ->]]]]]].
  pose proof (resume_checkpoint_no_step a w (adapted_model a dm)) as N.
  rewrite R in N. cbn [fst] in N.
  rewrite !filter_app. cbn [filter is_print_arguments app].
  rewrite (filter_none _ t3)
    by (eapply Forall_impl; [|exact N]; now intros e [_ ?]).
  rewrite (filter_none _ (fst datasets)).
  2:{ eapply Forall_impl; [|exact (tokenize_datasets_events a w tokenizer _)].
      intros e [[ex ->] | [[n ->] | [l ->]]]; reflexivity. }
  cbn [app].
  destruct (snd datasets) as [[td vd]|e]; [|reflexivity].
  destruct (make_trainer_run a w model td vd g) as [pre [-> P]].
  destruct (run_and_save_run a w model r) as [pre' [model' [-> P']]].
  cbn [fst]. rewrite !filter_app.
  destruct P as [-> | ->], P' as [[-> _] | [-> _]]; reflexivity.
Qed.

Lemma no_print_arguments_in_steps :
  filter is_print_arguments (fst (accumulation_steps a w)) = [].
Proof.
  apply filter_none.
  eapply Forall_impl; [|exact (accumulation_steps_prints a w)].
  intros e [p [-> N]]. destruct p; try reflexivity. now destruct (N a0).
Qed.

Lemma pipeline_steps : pipeline (fst (accumulation_steps a w)) = [].
Proof.
  apply pipeline_no_step.
  eapply Forall_impl; [|exact (accumulation_steps_prints a w)].
  intros e [p [-> _]]. reflexivity.
Qed.

(** Every row tokenizes under [run_conditions]. *)
Lemma generate_returns (dp : DataPoint) :
  enc_input_ids (call tokenizer (Args.cutoff_len a) (full_prompt dp)) <> [] ->
  enc_input_ids (call tokenizer (Args.cutoff_len a) (user_prompt dp)) <> [] ->
  exists ex,
    generate_and_tokenize_prompt tokenizer (Args.cutoff_len a)
      (Args.train_on_inputs a) (Args.add_eos_token a) dp = Ok ex.
Proof.
  intros NF NU.
  destruct (tokenize_total tokenizer (Args.cutoff_len a) _ true NF) as [full F].
  destruct (tokenize_total tokenizer (Args.cutoff_len a) _ (Args.add_eos_token a) NU)
    as [user U].
  destruct (Args.train_on_inputs a).
  - exists full. unfold generate_and_tokenize_prompt. now rewrite F.
  - eexists. exact (generate_masked _ _ _ _ _ _ F U).
Qed.

(** A run that meets [run_conditions] returns. *)
Lemma train_returns : run_conditions a w -> snd (train a w) = Ok tt.
Proof.
  intros [B [M [W [G [S N]]]]].
  rewrite train_outcome, print_arguments_run, B. cbn [snd].
  rewrite accumulation_steps_outcome. unfold Py.floordiv.
  destruct (Z.eqb_spec (Args.micro_batch_size a) 0) as [|_]; [contradiction|].
  cbn [bind].
  assert (T : exists td vd, snd datasets = Ok (td, vd)).
  { apply tokenize_datasets_returns; [|exact S|exact N].
    intros dp Hd. destruct (G dp Hd) as [NF NU]. now apply generate_returns. }
  destruct T as [td [vd T]]. fold tokenizer. fold datasets.
  destruct (ddp w).
  - destruct (Z.eqb_spec (world_size w) 0) as [|_]; [contradiction|].
    cbn [bind]. now rewrite T.
  - now rewrite T.
Qed.

End RunFacts.

(** ** Where an event of a run comes from *)

Section EventFacts.

Variable a : Args.t.
Variable w : World.

Let tokenizer := tokenizer_of w (Args.base_model a).
Let datasets := tokenize_datasets a w tokenizer (loaded_rows a w).

Lemma In_train (e : event) :
  In e (fst (train a w)) ->
  e = print (printed_arguments a)
  \/ (exists p, e = print p)
  \/ exists dm g,
      snd (print_arguments a w) = Ok tt
      /\ snd (accumulation_steps a w) = Ok (dm, g)
      /\ In e (trace_after_steps a w dm g).
Proof.
  rewrite train_trace, in_app_iff. intros [H|H].
  - rewrite print_arguments_run in H. cbn [fst] in H.
    destruct (local_rank w =? 0); [|destruct H].
    destruct H as [<-|[]]. now left.
  - destruct (snd (print_arguments a w)) as [[]|e0]; [|destruct H].
    rewrite in_app_iff in H. destruct H as [H|H].
    + right. left.
      pose proof (accumulation_steps_prints a w) as P.
      rewrite Forall_forall in P. destruct (P e H) as [p [-> _]]. eauto.
    + destruct (snd (accumulation_steps a w)) as [[dm g]|e1]; [|destruct H].
      right. right. exists dm, g. auto.
Qed.

(** The events after [accumulation_steps]: the six calls of lines
    123-229, the checkpoint block, and what follows it. *)
Lemma In_after_steps (e : event) (dm : device_map) (g : Z) :
  In e (trace_after_steps a w dm g) ->
  exists path files model r,
    snd (resume_checkpoint a w (adapted_model a dm)) = Ok (model, r)
    /\ (In e [call_model_from_pretrained (Args.base_model a) true float16 dm;
              call_tokenizer_from_pretrained (Args.base_model a);
              print (printed_token_ids (eos_token_id tokenizer));
              call_prepare_model_for_int8_training
                (from_pretrained (Args.base_model a) true float16 dm);
              call_get_peft_model
                (prepare_model_for_int8_training
                   (from_pretrained (Args.base_model a) true float16 dm))
                (config a);
              call_load_dataset path files]
        \/ In e (fst (resume_checkpoint a w (adapted_model a dm)))
        \/ e = call_print_trainable_parameters model
        \/ In e (fst datasets)
        \/ exists train_data val_data,
            snd datasets = Ok (train_data, val_data)
            /\ (In e (fst (make_trainer a w model train_data val_data g))
                \/ In e (fst (run_and_save a w model r)))).
Proof.
  destruct (trace_after_steps_shape a w dm g)
    as [path [files [t3 [model [r [R ->]]]]]].
  intros H. exists path, files, model, r. rewrite R. cbn [fst snd].
  split; [reflexivity|].
  rewrite !in_app_iff in H.
  destruct H as [H | [H | [H | [H | H]]]].
  - auto.
  - auto.
  - destruct H as [<-|[]]. auto.
  - fold tokenizer datasets in H. auto.
  - fold tokenizer datasets in H. do 4 right.
    destruct (snd datasets) as [[td vd]|e4]; [|destruct H].
    exists td, vd. split; [reflexivity|]. now rewrite in_app_iff in H.
Qed.

(** The call of [transformers.Trainer]: its model, datasets and
    arguments. *)
Lemma In_call_Trainer (m : Model) (td : list Example)
    (vd : option (list Example)) (ta : TrainingArguments.t) :
  In (call_Trainer m td vd ta) (fst (train a w)) ->
  exists dm g r,
    snd (accumulation_steps a w) = Ok (dm, g)
    /\ snd (resume_checkpoint a w (adapted_model a dm)) = Ok (m, r)
    /\ snd datasets = Ok (td, vd)
    /\ ta = training_arguments a g.
Proof.
  intros H. apply In_train in H.
  destruct H as [H | [[p H] | [dm [g [_ [A H]]]]]]; try discriminate.
  apply In_after_steps in H.
  destruct H as [path [files [model [r [R H]]]]].
  destruct H as [H | [H | [H | [H | H]]]].
  - cbn in H. repeat (destruct H as [H|H]; [discriminate|]). destruct H.
  - pose proof (resume_checkpoint_no_step a w (adapted_model a dm)) as N.
    rewrite Forall_forall in N. destruct (N _ H) as [_ ?].
    exfalso.
    clear - H a w. unfold resume_checkpoint in H.
    repeat match type of H with
           | context [match ?c with _ => _ end] => destruct c
           end; cbn in H;
      repeat (destruct H as [H|H]; [discriminate|]); destruct H.
  - discriminate.
  - pose proof (tokenize_datasets_events a w tokenizer (loaded_rows a w)) as N.
    rewrite Forall_forall in N.
    destruct (N _ H) as [[ex E] | [[n E] | [l E]]]; discriminate.
  - destruct H as [td' [vd' [T [H|H]]]].
    + destruct (make_trainer_run a w model td' vd' g) as [pre [E P]].
      rewrite E in H. cbn [fst] in H. rewrite in_app_iff in H.
      destruct H as [H|H].
      * destruct P as [-> | ->]; cbn in H; [destruct H|].
        destruct H as [H|[]]. discriminate.
      * cbn in H. destruct H as [H|[H|[]]]; [|discriminate].
        injection H as <- <- <- <-. exists dm, g, r. auto.
    + destruct (run_and_save_run a w model r) as [pre [m' [E P]]].
      rewrite E in H. cbn [fst] in H. rewrite in_app_iff in H.
      destruct H as [H|H].
      * destruct P as [[-> _] | [-> _]]; cbn in H; [destruct H|].
        destruct H as [H|[]]. discriminate.
      * cbn in H. repeat (destruct H as [H|H]; [discriminate|]). destruct H.
Qed.

(** The call of [trainer.train]: its argument is what the checkpoint
    block left in [resume_from_checkpoint]. *)
Lemma In_call_trainer_train (r : resume) :
  In (call_trainer_train r) (fst (train a w)) ->
  exists dm model,
    snd (resume_checkpoint a w (adapted_model a dm)) = Ok (model, r).
Proof.
  intros H. apply In_train in H.
  destruct H as [H | [[p H] | [dm [g [_ [A H]]]]]]; try discriminate.
  apply In_after_steps in H.
  destruct H as [path [files [model [r' [R H]]]]].
  destruct H as [H | [H | [H | [H | H]]]].
  - cbn in H. repeat (destruct H as [H|H]; [discriminate|]). destruct H.
  - pose proof (resume_checkpoint_no_step a w (adapted_model a dm)) as N.
    rewrite Forall_forall in N. destruct (N _ H) as [? _]. discriminate.
  - discriminate.
  - pose proof (tokenize_datasets_events a w tokenizer (loaded_rows a w)) as N.
    rewrite Forall_forall in N.
    destruct (N _ H) as [[ex E] | [[n E] | [l E]]]; discriminate.
  - destruct H as [td [vd [T [H|H]]]].
    + destruct (make_trainer_run a w model td vd g) as [pre [E P]].
      rewrite E in H. cbn [fst] in H. rewrite in_app_iff in H.
      destruct H as [H|H].
      * destruct P as [-> | ->]; cbn in H; [destruct H|].
        destruct H as [H|[]]. discriminate.
      * cbn in H. repeat (destruct H as [H|H]; [discriminate|]). destruct H.
    + destruct (run_and_save_run a w model r') as [pre [m' [E P]]].
      rewrite E in H. cbn [fst] in H. rewrite in_app_iff in H.
      destruct H as [H|H].
      * destruct P as [[-> _] | [-> _]]; cbn in H; [destruct H|].
        destruct H as [H|[]]. discriminate.
      * cbn in H. destruct H as [H|[H|H]]; [discriminate| |].
        -- injection H as <-. eauto.
        -- repeat (destruct H as [H|H]; [discriminate|]). destruct H.
Qed.

(** A checkpoint is read by the checkpoint block only. *)
Lemma In_checkpoint_call (e : event) :
  In e (fst (train a w)) ->
  is_checkpoint_call e = true ->
  exists dm, In e (fst (resume_checkpoint a w (adapted_model a dm))).
Proof.
  intros H C. apply In_train in H.
  destruct H as [-> | [[p ->] | [dm [g [_ [A H]]]]]]; try discriminate.
  apply In_after_steps in H.
  destruct H as [path [files [model [r' [R H]]]]].
  destruct H as [H | [H | [H | [H | H]]]].
  - cbn in H.
    destruct H as [<-|[<-|[<-|[<-|[<-|[<-|[]]]]]]]; discriminate.
  - eauto.
  - subst e. discriminate.
  - pose proof (tokenize_datasets_events a w tokenizer (loaded_rows a w)) as N.
    rewrite Forall_forall in N.
    destruct (N _ H) as [[ex ->] | [[n ->] | [l ->]]]; discriminate.
  - destruct H as [td [vd [T [H|H]]]].
    + destruct (make_trainer_run a w model td vd g) as [pre [E P]].
      rewrite E in H. cbn [fst] in H. rewrite in_app_iff in H.
      destruct H as [H|H].
      * destruct P as [-> | ->]; cbn in H; [destruct H|].
        destruct H as [<-|[]]. discriminate.
      * cbn in H. destruct H as [<-|[<-|[]]]; discriminate.
    + destruct (run_and_save_run a w model r') as [pre [m' [E P]]].
      rewrite E in H. cbn [fst] in H. rewrite in_app_iff in H.
      destruct H as [H|H].
      * destruct P as [[-> _] | [-> _]]; cbn in H; [destruct H|].
        destruct H as [<-|[]]. discriminate.
      * cbn in H.
        destruct H as [<-|[<-|[<-|[<-|[<-|[]]]]]]; discriminate.
Qed.

(** The trace of a run that returns, around the trainer. *)
Lemma train_Ok_trace :
  snd (train a w) = Ok tt ->
  exists dm g model r td vd pre mid model',
    snd (accumulation_steps a w) = Ok (dm, g)
    /\ snd (resume_checkpoint a w (adapted_model a dm)) = Ok (model, r)
    /\ snd datasets = Ok (td, vd)
    /\ fst (train a w)
       = pre
         ++ [call_Trainer model td vd (training_arguments a g);
             set_use_cache_False model]
         ++ mid
         ++ [print (printed_resume_from_checkpoint r);
             call_trainer_train r;
             call_save_pretrained model' (Args.output_dir a);
             call_torch_save (Py.path_join (Args.output_dir a) "pytorch_model.bin");
             call_tokenizer_save_pretrained (Args.output_dir a)].
Proof.
  intros H. rewrite train_outcome in H.
  destruct (snd (print_arguments a w)) as [[]|e0] eqn:P; [|discriminate].
  destruct (snd (accumulation_steps a w)) as [[dm g]|e1] eqn:A; [|discriminate].
  fold tokenizer datasets in H.
  destruct (snd datasets) as [[td vd]|e4] eqn:T; [|discriminate].
  destruct (trace_after_steps_shape a w dm g)
    as [path [files [t3 [model [r [R S]]]]]].
  fold tokenizer datasets in S. rewrite T in S.
  destruct (make_trainer_run a w model td vd g) as [pre [E _]].
  destruct (run_and_save_run a w model r) as [pre' [model' [E' _]]].
  rewrite E, E' in S. cbn [fst] in S.
  exists dm, g, model, r, td, vd.
  exists (fst (print_arguments a w) ++ fst (accumulation_steps a w)
          ++ [call_model_from_pretrained (Args.base_model a) true float16 dm;
              call_tokenizer_from_pretrained (Args.base_model a);
              print (printed_token_ids (eos_token_id tokenizer));
              call_prepare_model_for_int8_training
                (from_pretrained (Args.base_model a) true float16 dm);
              call_get_peft_model
                (prepare_model_for_int8_training
                   (from_pretrained (Args.base_model a) true float16 dm))
                (config a);
              call_load_dataset path files]
          ++ t3 ++ [call_print_trainable_parameters model]
          ++ fst datasets ++ pre).
  exists pre', model'.
  rewrite R. cbn [snd]. split; [reflexivity|]. split; [reflexivity|].
  split; [reflexivity|].
  rewrite train_trace, P, A, S. rewrite <- !app_assoc. reflexivity.
Qed.

End EventFacts.

(** ** The pipeline and its objects *)

(** C6 (as amended): the steps of every run are a prefix of the order
    load base model, load tokenizer, prepare for int8 training, attach the
    adapter, load the dataset, tokenize it, run the training loop, save the
    adapter and the tokenizer; a run that returns has made all of them, in
    that order; the arguments are printed once, before anything else, by
    the process of local rank 0 and not at all by the others; and a run
    that meets [run_conditions] returns. *)
Theorem train_pipeline_order (a : Args.t) (w : World) :
  (exists k, pipeline (fst (train a w)) = firstn k (pipeline_order a))
  /\ (snd (train a w) = Ok tt -> pipeline (fst (train a w)) = pipeline_order a)
  /\ filter is_print_arguments (fst (train a w))
     = (if local_rank w =? 0 then [print (printed_arguments a)] else [])
  /\ (local_rank w = 0 ->
      hd_error (fst (train a w)) = Some (print (printed_arguments a)))
  /\ (run_conditions a w -> snd (train a w) = Ok tt).
Proof.
  assert (P0 : pipeline (fst (print_arguments a w)) = []).
  { rewrite print_arguments_run. now destruct (local_rank w =? 0). }
  pose proof (tokenize_datasets_prefix a w (tokenizer_of w (Args.base_model a))
                (loaded_rows a w)) as [k [Hk Pk]].
  repeat split.
  - rewrite train_trace, pipeline_app, P0. cbn [app].
    destruct (snd (print_arguments a w)) as [[]|e0]; [|now exists 0%nat].
    rewrite pipeline_app, pipeline_steps. cbn [app].
    destruct (snd (accumulation_steps a w)) as [[dm g]|e1]; [|now exists 0%nat].
    rewrite pipeline_after_steps.
    destruct (snd (tokenize_datasets a w _ (loaded_rows a w))) as [[td vd]|e4] eqn:T.
    + exists (List.length (pipeline_order a)). rewrite firstn_all.
      apply tokenize_datasets_Ok in T. destruct T as [_ [-> _]]. reflexivity.
    + exists (5 + k)%nat. rewrite Pk, app_nil_r. unfold pipeline_order.
      cbn [app firstn Nat.add]. do 5 f_equal.
      rewrite firstn_app.
      replace (k - List.length (tokenize_steps a))%nat with 0%nat by lia.
      cbn [firstn]. now rewrite app_nil_r.
  - intros R. rewrite train_outcome in R.
    rewrite train_trace, pipeline_app, P0. cbn [app].
    destruct (snd (print_arguments a w)) as [[]|e0]; [|discriminate].
    rewrite pipeline_app, pipeline_steps. cbn [app].
    destruct (snd (accumulation_steps a w)) as [[dm g]|e1]; [|discriminate].
    rewrite pipeline_after_steps.
    destruct (snd (tokenize_datasets a w _ (loaded_rows a w))) as [[td vd]|e4] eqn:T;
      [|discriminate].
    apply tokenize_datasets_Ok in T. destruct T as [_ [-> _]]. reflexivity.
  - rewrite train_trace, filter_app.
    replace (filter is_print_arguments
               match snd (print_arguments a w) with
               | Ok _ =>
                   fst (accumulation_steps a w)
                   ++ match snd (accumulation_steps a w) with
                      | Ok (dm, g) => trace_after_steps a w dm g
                      | Raise _ => []
                      end
               | Raise _ => []
               end) with (@nil event).
    + rewrite app_nil_r, print_arguments_run. now destruct (local_rank w =? 0).
    + destruct (snd (print_arguments a w)) as [[]|e0]; [|reflexivity].
      rewrite filter_app, no_print_arguments_in_steps.
      destruct (snd (accumulation_steps a w)) as [[dm g]|e1]; [|reflexivity].
      now rewrite no_print_arguments_after_steps.
  - intros L. rewrite train_trace, print_arguments_run, L. reflexivity.
  - apply train_returns.
Qed.

Lemma train_pipeline_order_witness :
  snd (train demo_args demo_world) = Ok tt
  /\ pipeline (fst (train demo_args demo_world))
     = [step_load_base_model; step_load_tokenizer;
        step_prepare_int8; step_get_peft_model;
        step_load_dataset; step_tokenize_dataset;
        step_trainer_train;
        step_save_adapter; step_save_placeholder; step_save_tokenizer].
Proof.
  destruct (train_pipeline_order demo_args demo_world) as [_ [P [_ [_ R]]]].
  assert (C : run_conditions demo_args demo_world).
  { unfold run_conditions. cbv zeta. repeat split.
    - vm_compute. discriminate.
    - vm_compute. discriminate.
    - destruct H as [<-|[<-|[]]]; vm_compute; discriminate.
    - destruct H as [<-|[<-|[]]]; vm_compute; discriminate.
    - intros rows Hr dp Hd.
      destruct Hr as [<-|[<-|[<-|[]]]]; vm_compute in Hd |- *; tauto.
    - intros _. vm_compute. discriminate. }
  split; [exact (R C)|]. rewrite (P (R C)). reflexivity.
Defined.

(** C6 (as stated) fails twice: the second worker of a two-process
    launch runs the whole pipeline without printing the arguments, and a
    call with the default arguments stops at the assertion of line 108,
    having loaded nothing. *)
Lemma train_skips_a_stage :
  (snd (train demo_args worker_world) = Ok tt
   /\ filter is_print_arguments (fst (train demo_args worker_world)) = [])
  /\ train Args.default demo_world
     = ([print (printed_arguments Args.default)], Raise AssertionError).
Proof. repeat split; vm_compute; reflexivity. Qed.

(** C7: whenever the adapter is attached, [get_peft_model] receives the
    base model loaded with [load_in_8bit=True] and [torch_dtype=float16]
    and passed through [prepare_model_for_int8_training] just before, with
    a LoraConfig made of [lora_r], [lora_alpha], [lora_target_modules],
    [lora_dropout], bias "none" and task type "CAUSAL_LM"; no base model is
    loaded otherwise; and a run that returns has attached the adapter. *)
Theorem base_model_8bit_then_lora (a : Args.t) (w : World) :
  (forall b l8 dt dm,
      In (call_model_from_pretrained b l8 dt dm) (fst (train a w)) ->
      b = Args.base_model a /\ l8 = true /\ dt = float16)
  /\ (forall m c,
         In (call_get_peft_model m c) (fst (train a w)) ->
         exists dm pre post,
           let base := from_pretrained (Args.base_model a) true float16 dm in
           fst (train a w)
           = pre ++ [call_model_from_pretrained (Args.base_model a) true float16 dm;
                     call_tokenizer_from_pretrained (Args.base_model a);
                     print (printed_token_ids
                              (eos_token_id (tokenizer_of w (Args.base_model a))));
                     call_prepare_model_for_int8_training base;
                     call_get_peft_model m c] ++ post
           /\ m = prepare_model_for_int8_training base
           /\ LoraConfig.r c = Args.lora_r a
           /\ LoraConfig.lora_alpha c = Args.lora_alpha a
           /\ LoraConfig.target_modules c = Args.lora_target_modules a
           /\ LoraConfig.lora_dropout c = Args.lora_dropout a
           /\ LoraConfig.bias c = "none"
           /\ LoraConfig.task_type c = "CAUSAL_LM")
  /\ (snd (train a w) = Ok tt ->
      exists m c, In (call_get_peft_model m c) (fst (train a w))).
Proof.
  assert (K : forall e,
             In e (fst (train a w)) ->
             step_of e = Some step_load_base_model
             \/ step_of e = Some step_get_peft_model ->
             exists dm g,
               snd (print_arguments a w) = Ok tt
               /\ snd (accumulation_steps a w) = Ok (dm, g)
               /\ (e = call_model_from_pretrained (Args.base_model a) true float16 dm
                   \/ e = call_get_peft_model
                            (prepare_model_for_int8_training
                               (from_pretrained (Args.base_model a) true float16 dm))
                            (config a))).
  { intros e H S. apply In_train in H.
    destruct H as [-> | [[p ->] | [dm [g [P [A H]]]]]];
      [destruct S; discriminate | destruct S; discriminate |].
    exists dm, g. split; [exact P|]. split; [exact A|].
    apply In_after_steps in H.
    destruct H as [path [files [model [r [R H]]]]].
    destruct H as [H | [H | [H | [H | H]]]].
    - cbn in H.
      destruct H as [<-|[<-|[<-|[<-|[<-|[<-|[]]]]]]]; auto;
        destruct S; discriminate.
    - pose proof (resume_checkpoint_no_step a w (adapted_model a dm)) as N.
      rewrite Forall_forall in N. destruct (N _ H) as [E _].
      rewrite E in S. destruct S; discriminate.
    - subst e. destruct S; discriminate.
    - pose proof (tokenize_datasets_events a w (tokenizer_of w (Args.base_model a))
                      (loaded_rows a w)) as N.
      rewrite Forall_forall in N.
      destruct (N _ H) as [[ex ->] | [[n ->] | [l ->]]]; destruct S; discriminate.
    - destruct H as [td [vd [_ [H|H]]]].
      + destruct (make_trainer_run a w model td vd g) as [pre [E Q]].
        rewrite E in H. cbn [fst] in H. rewrite in_app_iff in H. exfalso.
        destruct H as [H|H].
        * destruct Q as [-> | ->]; cbn in H; [destruct H|].
          destruct H as [<-|[]]. destruct S; discriminate.
        * cbn in H. destruct H as [<-|[<-|[]]]; destruct S; discriminate.
      + destruct (run_and_save_run a w model r) as [pre [m' [E Q]]].
        rewrite E in H. cbn [fst] in H. rewrite in_app_iff in H. exfalso.
        destruct H as [H|H].
        * destruct Q as [[-> _] | [-> _]]; cbn in H; [destruct H|].
          destruct H as [<-|[]]. destruct S; discriminate.
        * cbn in H.
          destruct H as [<-|[<-|[<-|[<-|[<-|[]]]]]]; destruct S; discriminate. }
  split; [|split].
  - intros b l8 dt dm H.
    destruct (K _ H (or_introl eq_refl)) as [dm' [g [_ [_ [E|E]]]]];
      [|discriminate].
    injection E as -> -> -> _. auto.
  - intros m c H.
    destruct (K _ H (or_intror eq_refl)) as [dm [g [P [A [E|E]]]]];
      [discriminate|].
    injection E as -> ->.
    destruct (trace_after_steps_shape a w dm g)
      as [path [files [t3 [model [r [_ T]]]]]].
    exists dm, (fst (print_arguments a w) ++ fst (accumulation_steps a w)).
    eexists. cbv zeta. split; [|repeat split; reflexivity].
    rewrite train_trace, P, A, T. rewrite <- !app_assoc. cbn [app].
    reflexivity.
  - intros R. rewrite train_outcome in R.
    destruct (snd (print_arguments a w)) as [[]|e0] eqn:P; [|discriminate].
    destruct (snd (accumulation_steps a w)) as [[dm g]|e1] eqn:A; [|discriminate].
    destruct (trace_after_steps_shape a w dm g)
      as [path [files [t3 [model [r [_ T]]]]]].
    do 2 eexists. rewrite train_trace, P, A, T.
    rewrite !in_app_iff. right. right. left.
    cbn. do 4 right. left. reflexivity.
Qed.

Lemma base_model_8bit_then_lora_witness :
  exists m c,
    In (call_get_peft_model m c) (fst (train demo_args demo_world))
    /\ m = prepare_model_for_int8_training
             (from_pretrained "huggyllama/llama-7b" true float16 device_auto)
    /\ LoraConfig.r c = 16.
Proof.
  destruct (base_model_8bit_then_lora demo_args demo_world) as [_ [G E]].
  destruct E as [m [c H]]; [vm_compute; reflexivity|].
  exists m, c. split; [exact H|].
  destruct (G m c H) as [dm [pre [post [T [-> [R _]]]]]].
  split; [|exact R].
  assert (D : In (call_model_from_pretrained "huggyllama/llama-7b" true float16 dm)
                 (fst (train demo_args demo_world))).
  { rewrite T. rewrite in_app_iff. right. left. reflexivity. }
  vm_compute in D.
  repeat (destruct D as [D|D]; [try discriminate|]); [|destruct D].
  injection D as <-. reflexivity.
Defined.

(** C8: whenever [transformers.Trainer] is built, its arguments come from
    those of [train]: the micro batch size, the computed accumulation
    steps, the warmup steps, epochs, learning rate and scheduler, fp16 on,
    and evaluation (strategy, eval steps, best model at the end, the eval
    dataset) exactly when [val_set_size > 0]; and a run that returns has
    built the trainer and then called [trainer.train]. *)
Theorem trainer_configured_from_arguments (a : Args.t) (w : World) :
  (forall m td vd ta,
      In (call_Trainer m td vd ta) (fst (train a w)) ->
      TrainingArguments.per_device_train_batch_size ta = Args.micro_batch_size a
      /\ (g <- Py.floordiv (Args.batch_size a) (Args.micro_batch_size a) ;;
          if ddp w then Py.floordiv g (world_size w) else Ok g)
         = Ok (TrainingArguments.gradient_accumulation_steps ta)
      /\ TrainingArguments.warmup_steps ta = Args.warmup_steps a
      /\ TrainingArguments.num_train_epochs ta = Args.num_epochs a
      /\ TrainingArguments.learning_rate ta = Args.learning_rate a
      /\ TrainingArguments.lr_scheduler_type ta = Args.lr_scheduler a
      /\ TrainingArguments.fp16 ta = true
      /\ (TrainingArguments.evaluation_strategy ta = "steps"
          <-> Args.val_set_size a > 0)
      /\ (TrainingArguments.eval_steps ta = Some 200 <-> Args.val_set_size a > 0)
      /\ (TrainingArguments.load_best_model_at_end ta = true
          <-> Args.val_set_size a > 0)
      /\ (vd <> None <-> Args.val_set_size a > 0)
      /\ (Args.val_set_size a <= 0 ->
          TrainingArguments.evaluation_strategy ta = "no"
          /\ TrainingArguments.eval_steps ta = None
          /\ TrainingArguments.load_best_model_at_end ta = false
          /\ vd = None))
  /\ (snd (train a w) = Ok tt ->
      exists m td vd ta r pre mid post,
        fst (train a w)
        = pre ++ [call_Trainer m td vd ta] ++ mid ++ [call_trainer_train r] ++ post).
Proof.
  split.
  - intros m td vd ta H.
    destruct (In_call_Trainer a w m td vd ta H) as [dm [g [r [A [_ [T ->]]]]]].
    apply tokenize_datasets_Ok in T. destruct T as [_ [_ V]].
    rewrite accumulation_steps_outcome in A.
    cbn [TrainingArguments.per_device_train_batch_size
         TrainingArguments.gradient_accumulation_steps
         TrainingArguments.warmup_steps TrainingArguments.num_train_epochs
         TrainingArguments.learning_rate TrainingArguments.lr_scheduler_type
         TrainingArguments.fp16 TrainingArguments.evaluation_strategy
         TrainingArguments.eval_steps TrainingArguments.load_best_model_at_end
         training_arguments].
    split; [reflexivity|]. split.
    { destruct (Py.floordiv (Args.batch_size a) (Args.micro_batch_size a)) as [g0|e];
        [|discriminate].
      cbn [bind] in A |- *. destruct (ddp w).
      - destruct (Py.floordiv g0 (world_size w)) as [g1|e]; [|discriminate].
        cbn [bind] in A. now injection A as _ ->.
      - now injection A as _ ->. }
    do 5 (split; [reflexivity|]).
    destruct (Z.gtb_spec (Args.val_set_size a) 0) as [P|P].
    + destruct V as [v [-> _]].
      repeat split; intros; try lia; try reflexivity; discriminate.
    + destruct V as [-> _].
      repeat split; intros; try lia; try reflexivity; try discriminate;
        try contradiction.
  - intros R.
    destruct (train_Ok_trace a w R)
      as [dm [g [model [r [td [vd [pre [mid [model' [_ [_ [_ T]]]]]]]]]]]].
    exists model, td, vd, (training_arguments a g), r, pre.
    exists (set_use_cache_False model :: mid
            ++ [print (printed_resume_from_checkpoint r)]).
    eexists. rewrite T. cbn [app]. rewrite <- !app_assoc. reflexivity.
Qed.

Lemma trainer_configured_from_arguments_witness :
  map (fun d => List.length (fst d))
      (trainer_datasets (fst (train demo_args demo_world))) = [2%nat]
  /\ exists m td vd ta,
      In (call_Trainer m td vd ta) (fst (train demo_args demo_world))
      /\ TrainingArguments.gradient_accumulation_steps ta = 16
      /\ TrainingArguments.evaluation_strategy ta = "no".
Proof.
  split; [vm_compute; reflexivity|].
  destruct (trainer_configured_from_arguments demo_args demo_world) as [C E].
  destruct E as [m [td [vd [ta [r [pre [mid [post T]]]]]]]];
    [vm_compute; reflexivity|].
  assert (H : In (call_Trainer m td vd ta) (fst (train demo_args demo_world))).
  { rewrite T, in_app_iff. right. left. reflexivity. }
  exists m, td, vd, ta. split; [exact H|].
  destruct (C m td vd ta H) as [_ [G [_ [_ [_ [_ [_ [_ [_ [_ [_ N]]]]]]]]]]].
  split.
  - change (Ok 16 = Ok (TrainingArguments.gradient_accumulation_steps ta)) in G.
    now injection G as <-.
  - apply N. vm_compute. discriminate.
Defined.

(** C9 (as amended): [gradient_accumulation_steps] is the floor of
    [batch_size / micro_batch_size], divided again (floor) by WORLD_SIZE
    when WORLD_SIZE is greater than 1, and this is the value the trainer
    receives.  [micro_batch_size = 0] makes line 111 raise
    ZeroDivisionError, which [train] raises once a base model is named;
    WORLD_SIZE = 0 makes line 120 raise it.  [0 <= batch_size <
    micro_batch_size] gives 0 steps when WORLD_SIZE is not 0; a negative
    [batch_size] over a positive [micro_batch_size] gives a negative
    number of steps. *)
Theorem accumulation_steps_floor_division (a : Args.t) (w : World) :
  (Args.micro_batch_size a <> 0 -> world_size w = 1 ->
   snd (accumulation_steps a w)
   = Ok (device_auto, Args.batch_size a / Args.micro_batch_size a))
  /\ (Args.micro_batch_size a <> 0 -> world_size w > 1 ->
      snd (accumulation_steps a w)
      = Ok (device_of_rank (local_rank w),
            Args.batch_size a / Args.micro_batch_size a / world_size w))
  /\ (forall m td vd ta,
         In (call_Trainer m td vd ta) (fst (train a w)) ->
         exists dm,
           snd (accumulation_steps a w)
           = Ok (dm, TrainingArguments.gradient_accumulation_steps ta))
  /\ (Args.micro_batch_size a = 0 ->
      snd (accumulation_steps a w) = Raise ZeroDivisionError)
  /\ (Py.truthy (Args.base_model a) = true -> Args.micro_batch_size a = 0 ->
      snd (train a w) = Raise ZeroDivisionError)
  /\ (Args.micro_batch_size a <> 0 -> world_size w = 0 ->
      snd (accumulation_steps a w) = Raise ZeroDivisionError)
  /\ (0 <= Args.batch_size a < Args.micro_batch_size a -> world_size w <> 0 ->
      exists dm, snd (accumulation_steps a w) = Ok (dm, 0))
  /\ (Args.batch_size a < 0 < Args.micro_batch_size a -> world_size w = 1 ->
      exists g, snd (accumulation_steps a w) = Ok (device_auto, g) /\ g < 0).
Proof.
  rewrite accumulation_steps_outcome. unfold Py.floordiv, ddp.
  repeat split.
  - intros M W.
    destruct (Z.eqb_spec (Args.micro_batch_size a) 0); [contradiction|].
    rewrite W. reflexivity.
  - intros M W.
    destruct (Z.eqb_spec (Args.micro_batch_size a) 0); [contradiction|].
    cbn [bind].
    destruct (Z.eqb_spec (world_size w) 1); [lia|]. cbn [negb].
    destruct (Z.eqb_spec (world_size w) 0); [lia|]. reflexivity.
  - intros m td vd ta H.
    destruct (In_call_Trainer a w m td vd ta H) as [dm [g [r [A [_ [_ ->]]]]]].
    exists dm. rewrite accumulation_steps_outcome in A. exact A.
  - intros M. rewrite M. reflexivity.
  - intros B M.
    rewrite train_outcome, print_arguments_run, B. cbn [snd].
    rewrite accumulation_steps_outcome. unfold Py.floordiv.
    rewrite M. reflexivity.
  - intros M W.
    destruct (Z.eqb_spec (Args.micro_batch_size a) 0); [contradiction|].
    rewrite W. reflexivity.
  - intros [B M] W.
    destruct (Z.eqb_spec (Args.micro_batch_size a) 0); [lia|].
    cbn [bind]. rewrite (Z.div_small _ _ (conj B M)).
    destruct (negb (world_size w =? 1)).
    + destruct (Z.eqb_spec (world_size w) 0); [contradiction|].
      cbn [bind]. rewrite Z.div_0_l by assumption. eauto.
    + eauto.
  - intros [B M] W.
    destruct (Z.eqb_spec (Args.micro_batch_size a) 0); [lia|].
    rewrite W. cbn [bind Z.eqb negb Pos.eqb]. eexists. split; [reflexivity|].
    apply Z.div_lt_upper_bound; lia.
Qed.

Lemma accumulation_steps_floor_division_witness :
  snd (accumulation_steps demo_args worker_world) = Ok (device_of_rank 1, 8).
Proof.
  destruct (accumulation_steps_floor_division demo_args worker_world)
    as [_ [W _]].
  rewrite W; [reflexivity | vm_compute; discriminate | vm_compute; reflexivity].
Defined.

(** C9 (as stated) fails on lines 114-120 when WORLD_SIZE is 0: it is not
    1, so the zero steps of [batch_size = 4 < micro_batch_size = 8] are
    divided by it, and the run raises ZeroDivisionError instead of having
    0 accumulation steps. *)
Lemma small_batch_raises_when_world_size_is_zero :
  Args.batch_size (with_sizes demo_args 4 8 0 None)
  < Args.micro_batch_size (with_sizes demo_args 4 8 0 None)
  /\ snd (accumulation_steps (with_sizes demo_args 4 8 0 None) zero_world)
     = Raise ZeroDivisionError
  /\ snd (train (with_sizes demo_args 4 8 0 None) zero_world)
     = Raise ZeroDivisionError.
Proof. repeat split; vm_compute; reflexivity. Qed.

(** C10: when [resume_from_checkpoint] names a directory without
    [pytorch_model.bin], the checkpoint block turns to [adapter_model.bin]
    in that directory and [trainer.train] receives [False]; if that file
    exists its weights are loaded into the adapted model, which the
    trainer receives; if it does not, the block only prints that it was not
    found, loads nothing, and the trainer receives the adapted model as
    attached; the block never raises, and the run returns whenever
    [run_conditions] holds. *)
Theorem resume_falls_back_to_adapter (a : Args.t) (w : World) (path : string) :
  Args.resume_from_checkpoint a = Some path ->
  Py.truthy path = true ->
  path_exists w (Py.path_join path "pytorch_model.bin") = false ->
  let adapter := Py.path_join path "adapter_model.bin" in
  (forall model,
      resume_checkpoint a w model
      = if path_exists w adapter
        then ([print (printed_restarting_from adapter);
               call_torch_load adapter;
               call_set_peft_model_state_dict model adapter],
              Ok (set_peft_model_state_dict model adapter, resume_False))
        else ([print (printed_checkpoint_not_found adapter)],
              Ok (model, resume_False)))
  /\ (forall r, In (call_trainer_train r) (fst (train a w)) -> r = resume_False)
  /\ (forall m td vd ta,
         In (call_Trainer m td vd ta) (fst (train a w)) ->
         exists dm,
           m = if path_exists w adapter
               then set_peft_model_state_dict (adapted_model a dm) adapter
               else adapted_model a dm)
  /\ (forall e,
         In e (fst (train a w)) -> is_checkpoint_call e = true ->
         path_exists w adapter = true
         /\ (e = call_torch_load adapter
             \/ exists dm,
                 e = call_set_peft_model_state_dict (adapted_model a dm) adapter))
  /\ (run_conditions a w ->
      snd (train a w) = Ok tt
      /\ In (call_trainer_train resume_False) (fst (train a w))).
Proof.
  intros G T F adapter.
  assert (B : forall model,
             resume_checkpoint a w model
             = if path_exists w adapter
               then ([print (printed_restarting_from adapter);
                      call_torch_load adapter;
                      call_set_peft_model_state_dict model adapter],
                     Ok (set_peft_model_state_dict model adapter, resume_False))
               else ([print (printed_checkpoint_not_found adapter)],
                     Ok (model, resume_False))).
  { intros model. unfold resume_checkpoint. rewrite G, T, F. cbn [negb].
    fold adapter. destruct (path_exists w adapter); reflexivity. }
  split; [exact B|]. split; [|split; [|split]].
  - intros r H. apply In_call_trainer_train in H.
    destruct H as [dm [model R]]. rewrite B in R.
    destruct (path_exists w adapter); cbn in R; now injection R as _ <-.
  - intros m td vd ta H. apply In_call_Trainer in H.
    destruct H as [dm [g [r [_ [R _]]]]]. exists dm. rewrite B in R.
    destruct (path_exists w adapter); cbn in R; now injection R as <- _.
  - intros e H C. apply In_checkpoint_call in H; [|exact C].
    destruct H as [dm H]. rewrite B in H.
    destruct (path_exists w adapter); cbn in H.
    + split; [reflexivity|].
      destruct H as [<-|[<-|[<-|[]]]]; [discriminate | auto | eauto].
    + destruct H as [<-|[]]. discriminate.
  - intros C. pose proof (train_returns a w C) as R. split; [exact R|].
    destruct (train_Ok_trace a w R)
      as [dm [g [model [r [td [vd [pre [mid [model' [_ [S [_ E]]]]]]]]]]]].
    rewrite B in S.
    assert (r = resume_False) as ->
      by (destruct (path_exists w adapter); cbn in S; now injection S as _ <-).
    rewrite E, !in_app_iff. do 3 right. cbn. auto.
Qed.

Lemma resume_falls_back_to_adapter_witness :
  In (call_torch_load "ckpt/adapter_model.bin")
     (fst (train (with_sizes demo_args 128 8 0 (Some "ckpt")) adapter_world))
  /\ forall r,
      In (call_trainer_train r)
         (fst (train (with_sizes demo_args 128 8 0 (Some "ckpt")) adapter_world)) ->
      r = resume_False.
Proof.
  destruct (resume_falls_back_to_adapter
              (with_sizes demo_args 128 8 0 (Some "ckpt")) adapter_world "ckpt")
    as [_ [R _]]; try reflexivity.
  split; [|exact R]. vm_compute. tauto.
Defined.

(** ** The training dataset *)

Lemma full_prompt_is_template (dp : DataPoint) :
  full_prompt dp = alpaca_template (instruction dp) (input dp) (output dp).
Proof. reflexivity. Qed.

Lemma generate_Ok_inputs (tokenizer : Tokenizer) (cutoff_len : Z)
    (train_on_inputs add_eos_token : bool) (dp : DataPoint) (ex : Example) :
  generate_and_tokenize_prompt tokenizer cutoff_len train_on_inputs add_eos_token dp
  = Ok ex ->
  exists full,
    tokenize tokenizer cutoff_len (full_prompt dp) true = Ok full
    /\ input_ids ex = input_ids full
    /\ attention_mask ex = attention_mask full.
Proof.
  unfold generate_and_tokenize_prompt.
  destruct (tokenize tokenizer cutoff_len (full_prompt dp) true) as [full|e];
    [|discriminate].
  cbn [bind]. destruct train_on_inputs; cbn [negb].
  - intros H. injection H as <-. eauto.
  - destruct (tokenize tokenizer cutoff_len (user_prompt dp) add_eos_token)
      as [user|e]; [|discriminate].
    cbn [bind]. intros H. injection H as <-. eauto.
Qed.

(** C4 (as amended): every prompt is the Alpaca template filled with the
    instruction, input and output of the row; the training dataset the
    trainer receives has one example per row of the shuffled training
    rows, in order, each made by [generate_and_tokenize_prompt] from the
    tokenized template; the training rows are the whole loaded dataset
    when [val_set_size <= 0] and the train side of the split otherwise,
    whose held-out side goes through the same function into the
    validation dataset; and a run that returns has built that dataset. *)
Theorem training_examples_from_template (a : Args.t) (w : World) :
  let tokenizer := tokenizer_of w (Args.base_model a) in
  let generate :=
    generate_and_tokenize_prompt tokenizer (Args.cutoff_len a)
      (Args.train_on_inputs a) (Args.add_eos_token a) in
  let from_template dp ex :=
    generate dp = Ok ex
    /\ exists full,
        tokenize tokenizer (Args.cutoff_len a)
          (alpaca_template (instruction dp) (input dp) (output dp)) true = Ok full
        /\ input_ids ex = input_ids full
        /\ attention_mask ex = attention_mask full in
  (forall dp,
      full_prompt dp = alpaca_template (instruction dp) (input dp) (output dp))
  /\ (forall m td vd ta,
         In (call_Trainer m td vd ta) (fst (train a w)) ->
         Forall2 from_template (training_rows a w (loaded_rows a w)) td
         /\ (Args.val_set_size a <= 0 ->
             training_rows a w (loaded_rows a w) = shuffle w (loaded_rows a w)
             /\ vd = None)
         /\ (Args.val_set_size a > 0 ->
             training_rows a w (loaded_rows a w)
             = shuffle w (fst (train_test_split w (Args.val_set_size a)
                                 (loaded_rows a w)))
             /\ exists v,
                 vd = Some v
                 /\ Forall2 from_template
                      (shuffle w (snd (train_test_split w (Args.val_set_size a)
                                         (loaded_rows a w)))) v))
  /\ (snd (train a w) = Ok tt ->
      exists m td vd ta, In (call_Trainer m td vd ta) (fst (train a w))).
Proof.
  intros tokenizer generate from_template.
  assert (M : forall rows exs,
             dataset_map tokenizer (Args.cutoff_len a) (Args.train_on_inputs a)
               (Args.add_eos_token a) rows = Ok exs ->
             Forall2 from_template rows exs).
  { intros rows exs H. apply dataset_map_Ok in H.
    eapply Forall2_impl; [|exact H].
    intros dp ex E. split; [exact E|].
    rewrite <- full_prompt_is_template. exact (generate_Ok_inputs _ _ _ _ _ _ E). }
  split; [exact full_prompt_is_template|]. split.
  - intros m td vd ta H. apply In_call_Trainer in H.
    destruct H as [dm [g [r [_ [_ [T _]]]]]].
    apply tokenize_datasets_Ok in T. destruct T as [D [_ V]].
    split; [exact (M _ _ D)|]. unfold training_rows.
    destruct (Z.gtb_spec (Args.val_set_size a) 0) as [P|P].
    + split; [lia|]. intros _. split; [reflexivity|].
      destruct V as [v [-> Dv]]. exists v. split; [reflexivity | exact (M _ _ Dv)].
    + split; [|lia]. intros _. destruct V as [-> _]. auto.
  - intros R.
    destruct (train_Ok_trace a w R)
      as [dm [g [model [r [td [vd [pre [mid [model' [_ [_ [_ E]]]]]]]]]]]].
    exists model, td, vd, (training_arguments a g).
    rewrite E, !in_app_iff. right. left. cbn. auto.
Qed.

Lemma training_examples_from_template_witness :
  exists m td vd ta,
    In (call_Trainer m td vd ta) (fst (train demo_args demo_world))
    /\ List.length td = 2%nat.
Proof.
  destruct (training_examples_from_template demo_args demo_world) as [_ [F E]].
  destruct E as [m [td [vd [ta H]]]]; [vm_compute; reflexivity|].
  exists m, td, vd, ta. split; [exact H|].
  destruct (F m td vd ta H) as [L _].
  apply Forall2_length in L. rewrite <- L. reflexivity.
Defined.

(** C4 (as stated) fails when a validation set is asked for: of the two
    loaded rows, one is held out, and the training dataset is the mapping
    of the other alone. *)
Lemma training_dataset_leaves_out_validation_rows :
  snd (train (with_sizes demo_args 128 8 1 None) demo_world) = Ok tt
  /\ List.length (loaded_rows (with_sizes demo_args 128 8 1 None) demo_world) = 2%nat
  /\ map (fun d => List.length (fst d))
         (trainer_datasets
            (fst (train (with_sizes demo_args 128 8 1 None) demo_world)))
     = [1%nat].
Proof. repeat split; vm_compute; reflexivity. Qed.

(** * Further properties of the closures *)

Lemma string_append_assoc (s t u : string) :
  ((s ++ t) ++ u = s ++ t ++ u)%string.
Proof. induction s as [|c s IH]; cbn; [reflexivity | now rewrite IH]. Qed.

Lemma string_append_empty (s : string) : (s ++ "" = s)%string.
Proof. induction s as [|c s IH]; cbn; [reflexivity | now rewrite IH]. Qed.

(** The prompt without the response is the beginning of the full
    prompt. *)
Lemma full_prompt_extends_user_prompt (dp : DataPoint) :
  full_prompt dp = (user_prompt dp ++ output dp)%string.
Proof.
  unfold full_prompt, user_prompt.
  repeat rewrite string_append_assoc. reflexivity.
Qed.

(** X1: [tokenize] raises exactly when the encoding of the prompt is
    empty, and what it raises is IndexError, whatever [add_eos_token]. *)
Theorem tokenize_raises_iff_empty
    (tokenizer : Tokenizer) (cutoff_len : Z) (prompt : string)
    (add_eos_token : bool) (e : exn) :
  tokenize tokenizer cutoff_len prompt add_eos_token = Raise e
  <-> enc_input_ids (call tokenizer cutoff_len prompt) = [] /\ e = IndexError.
Proof.
  split.
  - intros H.
    destruct (enc_input_ids (call tokenizer cutoff_len prompt)) as [|x l] eqn:E.
    + rewrite (tokenize_empty _ _ _ _ E) in H. injection H as <-. auto.
    + destruct (tokenize_total tokenizer cutoff_len prompt add_eos_token) as [r R].
      * rewrite E. discriminate.
      * rewrite R in H. discriminate.
  - intros [E ->]. now apply tokenize_empty.
Qed.

Lemma tokenize_raises_iff_empty_witness :
  tokenize byte_tokenizer 4096 "" false = Raise IndexError.
Proof.
  apply (proj2 (tokenize_raises_iff_empty byte_tokenizer 4096 "" false IndexError)).
  split; reflexivity.
Defined.

(** X2: with [add_eos_token] true and room below [cutoff_len], the
    returned [input_ids] end with the eos id; an encoding that already ends
    with it comes back unchanged, so the eos id is never doubled. *)
Theorem tokenize_ends_with_eos
    (tokenizer : Tokenizer) (cutoff_len : Z) (prompt : string) (r : Example) :
  tokenize tokenizer cutoff_len prompt true = Ok r ->
  Py.len (enc_input_ids (call tokenizer cutoff_len prompt)) < cutoff_len ->
  Py.getitem_last (input_ids r) = Ok (eos_token_id tokenizer)
  /\ (forall front,
         enc_input_ids (call tokenizer cutoff_len prompt)
         = front ++ [eos_token_id tokenizer] ->
         input_ids r = enc_input_ids (call tokenizer cutoff_len prompt)
         /\ attention_mask r = enc_attention_mask (call tokenizer cutoff_len prompt)).
Proof.
  intros R L.
  destruct (tokenize_Ok _ _ _ _ _ R) as [_ [_ N]].
  destruct (nonempty_snoc _ N) as [front [last E]].
  rewrite (tokenize_snoc _ _ _ _ front last E) in R. cbv zeta in R.
  unfold appends_eos in R.
  destruct (Z.ltb_spec (Py.len (enc_input_ids (call tokenizer cutoff_len prompt)))
              cutoff_len) as [_|]; [|lia].
  rewrite andb_true_r in R.
  destruct (Z.eqb_spec last (eos_token_id tokenizer)) as [Q|Q];
    cbn [negb] in R; injection R as <-; cbn [input_ids attention_mask].
  - split.
    + rewrite E, Q. apply getitem_last_app.
    + auto.
  - split.
    + apply getitem_last_app.
    + intros front' E'. rewrite E' in E. apply app_inj_tail in E.
      destruct E as [_ E]. congruence.
Qed.

Lemma tokenize_ends_with_eos_witness :
  exists r,
    tokenize byte_tokenizer 8 "hi" true = Ok r
    /\ Py.getitem_last (input_ids r) = Ok 0.
Proof.
  eexists. split; [reflexivity|].
  apply (tokenize_ends_with_eos byte_tokenizer 8 "hi");
    [reflexivity | vm_compute; reflexivity].
Defined.

(** X3: whatever the two flags are, a label of a returned example is
    either the sentinel -100 or the input id at its position. *)
Theorem label_is_ignore_or_input_id
    (tokenizer : Tokenizer) (cutoff_len : Z)
    (train_on_inputs add_eos_token : bool) (dp : DataPoint) (r : Example) :
  generate_and_tokenize_prompt tokenizer cutoff_len train_on_inputs add_eos_token dp
  = Ok r ->
  forall i x,
    nth_error (labels r) i = Some x ->
    x = -100 \/ nth_error (input_ids r) i = Some x.
Proof.
  unfold generate_and_tokenize_prompt.
  destruct (tokenize tokenizer cutoff_len (full_prompt dp) true) as [full|e] eqn:F;
    [|discriminate].
  cbn [bind]. destruct (tokenize_Ok _ _ _ _ _ F) as [L _].
  destruct train_on_inputs; cbn [negb].
  - intros H. injection H as <-. intros i x Hx. right. now rewrite <- L.
  - destruct (tokenize tokenizer cutoff_len (user_prompt dp) add_eos_token)
      as [user|e] eqn:U; [|discriminate].
    cbn [bind]. intros H. injection H as <-. cbn [labels input_ids].
    pose proof (masked_len_bounds _ _ _ _ _ U) as [P _].
    fold (masked_len user add_eos_token).
    rewrite (slice_from_nonneg _ _ P), L. unfold Py.list_mul.
    intros i x Hx.
    destruct (Nat.lt_ge_cases i (Z.to_nat (masked_len user add_eos_token))) as [Hi|Hi].
    + rewrite nth_error_mask_prefix in Hx by exact Hi. injection Hx as <-. now left.
    + rewrite nth_error_mask_suffix in Hx by exact Hi. now right.
Qed.

Lemma label_is_ignore_or_input_id_witness :
  exists r,
    generate_and_tokenize_prompt byte_tokenizer 4096 false false row1 = Ok r
    /\ forall i x, nth_error (labels r) i = Some x ->
                   x = -100 \/ nth_error (input_ids r) i = Some x.
Proof.
  eexists. split; [reflexivity|].
  apply (label_is_ignore_or_input_id byte_tokenizer 4096 false false row1).
  reflexivity.
Defined.

(** X4: without [add_eos_token], when the prompt without the response
    already fills [cutoff_len] and the tokenizer truncates the full prompt
    to [cutoff_len], every label is -100: the example carries no target. *)
Theorem truncated_response_is_fully_masked
    (tokenizer : Tokenizer) (cutoff_len : Z) (dp : DataPoint) (r : Example) :
  generate_and_tokenize_prompt tokenizer cutoff_len false false dp = Ok r ->
  Py.len (enc_input_ids (call tokenizer cutoff_len (user_prompt dp))) = cutoff_len ->
  Py.len (enc_input_ids (call tokenizer cutoff_len (full_prompt dp))) <= cutoff_len ->
  labels r = repeat (-100) (Z.to_nat cutoff_len).
Proof.
  intros G HU HF. unfold generate_and_tokenize_prompt in G.
  destruct (tokenize tokenizer cutoff_len (full_prompt dp) true) as [full|e] eqn:F;
    [|discriminate].
  cbn [bind negb] in G.
  destruct (tokenize tokenizer cutoff_len (user_prompt dp) false) as [user|e] eqn:U;
    [|discriminate].
  cbn [bind] in G. injection G as <-. cbn [labels].
  rewrite (tokenize_false_Ok _ _ _ _ U), HU.
  destruct (tokenize_Ok _ _ _ _ _ F) as [L [_ N]].
  destruct (nonempty_snoc _ N) as [front [last E]].
  assert (B : Py.len (labels full) <= cutoff_len).
  { rewrite (tokenize_snoc _ _ _ _ front last E) in F. cbv zeta in F.
    unfold appends_eos in F.
    destruct (Z.ltb_spec (Py.len (enc_input_ids (call tokenizer cutoff_len (full_prompt dp))))
                cutoff_len);
      destruct (negb (last =? eos_token_id tokenizer)); cbn [andb] in F;
      injection F as <-; cbn [labels]; try rewrite len_app;
      change (Py.len [eos_token_id tokenizer]) with 1; lia. }
  assert (0 <= cutoff_len) by (rewrite <- HU; apply len_nonneg).
  rewrite slice_from_nonneg by assumption.
  rewrite skipn_all2 by (unfold Py.len in B; lia).
  unfold Py.list_mul, IGNORE. now rewrite app_nil_r.
Qed.

Lemma truncated_response_is_fully_masked_witness :
  exists r,
    generate_and_tokenize_prompt byte_tokenizer 16 false false row1 = Ok r
    /\ labels r = repeat (-100) 16.
Proof.
  eexists. split; [reflexivity|].
  apply (truncated_response_is_fully_masked byte_tokenizer 16 row1);
    [reflexivity | reflexivity | vm_compute; discriminate].
Defined.

Lemma len_positive {A : Type} (l : list A) : l <> [] -> 1 <= Py.len l.
Proof. unfold Py.len. destruct l; [congruence | cbn; lia]. Qed.

(** [tokenize] returns the encoding as it is when line 145 does not
    hold. *)
Lemma tokenize_unchanged (tokenizer : Tokenizer) (cutoff_len : Z)
    (prompt : string) (b : bool) (r : Example) :
  tokenize tokenizer cutoff_len prompt b = Ok r ->
  cutoff_len <= Py.len (enc_input_ids (call tokenizer cutoff_len prompt))
  \/ Py.getitem_last (enc_input_ids (call tokenizer cutoff_len prompt))
     = Ok (eos_token_id tokenizer) ->
  input_ids r = enc_input_ids (call tokenizer cutoff_len prompt).
Proof.
  intros R H.
  destruct (tokenize_Ok _ _ _ _ _ R) as [_ [_ N]].
  destruct (nonempty_snoc _ N) as [front [last E]].
  rewrite (tokenize_snoc _ _ _ _ front last E) in R. cbv zeta in R.
  unfold appends_eos in R.
  assert (A : negb (last =? eos_token_id tokenizer)
              && (Py.len (enc_input_ids (call tokenizer cutoff_len prompt)) <? cutoff_len)
              = false).
  { destruct H as [H|H].
    - destruct (Z.ltb_spec (Py.len (enc_input_ids (call tokenizer cutoff_len prompt)))
                  cutoff_len); [lia | apply andb_false_r].
    - rewrite E, getitem_last_app in H. injection H as ->.
      now rewrite Z.eqb_refl. }
  rewrite A in R. cbn [andb] in R. now injection R as <-.
Qed.

(** X5: with [add_eos_token] true, [user_prompt_len] is decremented even
    when no eos id was appended to the prompt without the response (it
    fills [cutoff_len], or already ends with the eos id): then only the
    first [n - 1] of its [n] tokens are masked, and from position [n - 1]
    on the labels are the input ids. *)
Theorem eos_decrement_unmasks_last_prompt_token
    (tokenizer : Tokenizer) (cutoff_len : Z) (dp : DataPoint) (r : Example) :
  let enc := enc_input_ids (call tokenizer cutoff_len (user_prompt dp)) in
  generate_and_tokenize_prompt tokenizer cutoff_len false true dp = Ok r ->
  cutoff_len <= Py.len enc \/ Py.getitem_last enc = Ok (eos_token_id tokenizer) ->
  (forall i, (i < List.length enc - 1)%nat -> nth_error (labels r) i = Some (-100))
  /\ (forall i, (List.length enc - 1 <= i)%nat ->
                nth_error (labels r) i = nth_error (input_ids r) i).
Proof.
  intros enc G H. unfold generate_and_tokenize_prompt in G.
  destruct (tokenize tokenizer cutoff_len (full_prompt dp) true) as [full|e] eqn:F;
    [|discriminate].
  cbn [bind negb] in G.
  destruct (tokenize tokenizer cutoff_len (user_prompt dp) true) as [user|e] eqn:U;
    [|discriminate].
  cbn [bind] in G. injection G as <-. cbn [labels input_ids].
  destruct (tokenize_Ok _ _ _ _ _ F) as [L _]. rewrite L.
  rewrite (tokenize_unchanged _ _ _ _ _ U H). fold enc.
  destruct (tokenize_Ok _ _ _ _ _ U) as [_ [_ N]]. fold enc in N.
  assert (P : 0 <= Py.len enc - 1) by (pose proof (len_positive _ N); lia).
  rewrite (slice_from_nonneg _ _ P). unfold Py.list_mul, IGNORE.
  replace (Z.to_nat (Py.len enc - 1)) with (List.length enc - 1)%nat
    by (unfold Py.len; lia).
  split; intros i Hi.
  - now apply nth_error_mask_prefix.
  - now apply nth_error_mask_suffix.
Qed.

Lemma eos_decrement_unmasks_last_prompt_token_witness :
  exists r,
    generate_and_tokenize_prompt byte_tokenizer 16 false true row1 = Ok r
    /\ nth_error (labels r) 15 = Some 116
    /\ nth_error (input_ids r) 15 = Some 116.
Proof.
  destruct (generate_and_tokenize_prompt byte_tokenizer 16 false true row1)
    as [r|e] eqn:G.
  - exists r. split; [reflexivity|].
    destruct (eos_decrement_unmasks_last_prompt_token byte_tokenizer 16 row1 r G)
      as [_ S]; [left; vm_compute; discriminate|].
    assert (I : nth_error (input_ids r) 15 = Some 116)
      by (vm_compute in G; injection G as <-; reflexivity).
    split; [|exact I].
    rewrite (S 15%nat); [exact I | vm_compute; lia].
  - vm_compute in G. discriminate.
Defined.

(** X6: a row with an empty response and [add_eos_token] false has the
    whole prompt masked: the labels are one -100 per prompt token, followed
    by the eos id when [tokenize] appended it to the input ids, and by
    nothing otherwise. *)
Theorem empty_response_leaves_only_eos
    (tokenizer : Tokenizer) (cutoff_len : Z) (dp : DataPoint) (r : Example) :
  let enc := enc_input_ids (call tokenizer cutoff_len (user_prompt dp)) in
  output dp = "" ->
  generate_and_tokenize_prompt tokenizer cutoff_len false false dp = Ok r ->
  (input_ids r = enc /\ labels r = repeat (-100) (List.length enc))
  \/ (input_ids r = enc ++ [eos_token_id tokenizer]
      /\ labels r = repeat (-100) (List.length enc) ++ [eos_token_id tokenizer]).
Proof.
  intros enc O G. unfold generate_and_tokenize_prompt in G.
  assert (E : full_prompt dp = user_prompt dp)
    by (rewrite full_prompt_extends_user_prompt, O; apply string_append_empty).
  rewrite E in G.
  destruct (tokenize tokenizer cutoff_len (user_prompt dp) true) as [full|e] eqn:F;
    [|discriminate].
  cbn [bind negb] in G.
  destruct (tokenize tokenizer cutoff_len (user_prompt dp) false) as [user|e] eqn:U;
    [|discriminate].
  cbn [bind] in G. injection G as <-. cbn [labels input_ids].
  rewrite (tokenize_false_Ok _ _ _ _ U). fold enc.
  rewrite (slice_from_nonneg _ _ (len_nonneg enc)).
  unfold Py.list_mul, IGNORE, Py.len. rewrite Nat2Z.id.
  destruct (tokenize_Ok _ _ _ _ _ F) as [L [[S|S] _]]; rewrite L, S; fold enc.
  - left. split; [reflexivity|]. now rewrite skipn_all, app_nil_r.
  - right. split; [reflexivity|].
    rewrite skipn_app, skipn_all, Nat.sub_diag. reflexivity.
Qed.

Lemma empty_response_leaves_only_eos_witness :
  exists r,
    generate_and_tokenize_prompt byte_tokenizer 4096 false false
      {| instruction := "Stop."; input := ""; output := "" |} = Ok r
    /\ labels r = repeat (-100) 210 ++ [0].
Proof.
  destruct (generate_and_tokenize_prompt byte_tokenizer 4096 false false
              {| instruction := "Stop."; input := ""; output := "" |})
    as [r|e] eqn:G.
  - exists r. split; [reflexivity|].
    destruct (empty_response_leaves_only_eos byte_tokenizer 4096
                {| instruction := "Stop."; input := ""; output := "" |} r eq_refl G)
      as [[I L] | [_ L]].
    + vm_compute in G. injection G as <-. discriminate.
    + rewrite L. reflexivity.
  - vm_compute in G. discriminate.
Defined.

(** [generate_and_tokenize_prompt] raises exactly when one of the
    prompts it tokenizes has an empty encoding. *)
Lemma generate_raises_iff (tokenizer : Tokenizer) (cutoff_len : Z)
    (train_on_inputs add_eos_token : bool) (dp : DataPoint) (e : exn) :
  generate_and_tokenize_prompt tokenizer cutoff_len train_on_inputs add_eos_token dp
  = Raise e
  <-> e = IndexError
      /\ (enc_input_ids (call tokenizer cutoff_len (full_prompt dp)) = []
          \/ (train_on_inputs = false
              /\ enc_input_ids (call tokenizer cutoff_len (user_prompt dp)) = [])).
Proof.
  unfold generate_and_tokenize_prompt. split.
  - destruct (tokenize tokenizer cutoff_len (full_prompt dp) true) as [full|e'] eqn:F.
    + cbn [bind]. destruct train_on_inputs; cbn [negb]; [discriminate|].
      destruct (tokenize tokenizer cutoff_len (user_prompt dp) add_eos_token)
        as [user|e''] eqn:U; [discriminate|].
      cbn [bind]. intros H. injection H as <-.
      apply tokenize_raises_iff_empty in U. destruct U as [U ->]. auto.
    + cbn [bind]. intros H. injection H as <-.
      apply tokenize_raises_iff_empty in F. destruct F as [F ->]. auto.
  - intros [-> [F | [-> U]]].
    + now rewrite (tokenize_empty _ _ _ _ F).
    + destruct (tokenize tokenizer cutoff_len (full_prompt dp) true) as [full|e'] eqn:F.
      * cbn [bind negb]. now rewrite (tokenize_empty _ _ _ _ U).
      * apply tokenize_raises_iff_empty in F. now destruct F as [_ ->].
Qed.

(** A row either has its three columns, and the call goes on to lines
    190-212, or lacks one, and the first lookup that misses raises. *)
Lemma generate_row_cases (tokenizer : Tokenizer) (cutoff_len : Z)
    (train_on_inputs add_eos_token : bool) (row : Row) :
  (exists dp,
      columns row = Some dp
      /\ generate_and_tokenize_prompt_row tokenizer cutoff_len train_on_inputs
           add_eos_token row
         = match generate_and_tokenize_prompt tokenizer cutoff_len train_on_inputs
                   add_eos_token dp with
           | Ok example => Returned example
           | Raise e => Raised e
           end)
  \/ (columns row = None
      /\ exists key,
          generate_and_tokenize_prompt_row tokenizer cutoff_len train_on_inputs
            add_eos_token row = RaisedKeyError key
          /\ getitem row key = None
          /\ (key = "instruction" \/ key = "input" \/ key = "output")).
Proof.
  unfold columns, generate_and_tokenize_prompt_row.
  destruct (getitem row "instruction") as [i|] eqn:I; [|right; eauto 8].
  destruct (getitem row "input") as [n|] eqn:N; [|right; eauto 8].
  destruct (getitem row "output") as [o|] eqn:O; [|right; eauto 8].
  left. eauto.
Qed.

(** X7: mapping [generate_and_tokenize_prompt] over rows given as
    dictionaries returns exactly when every row has the columns
    instruction, input and output and no prompt it tokenizes has an empty
    encoding; it raises KeyError only for a column that some row lacks, and
    any other exception is the IndexError of a row that has its columns
    and a prompt with an empty encoding. *)
Theorem dataset_map_rows_outcome
    (tokenizer : Tokenizer) (cutoff_len : Z)
    (train_on_inputs add_eos_token : bool) (rows : list Row) :
  let empty_encoding dp :=
    enc_input_ids (call tokenizer cutoff_len (full_prompt dp)) = []
    \/ (train_on_inputs = false
        /\ enc_input_ids (call tokenizer cutoff_len (user_prompt dp)) = []) in
  let mapped :=
    dataset_map_rows tokenizer cutoff_len train_on_inputs add_eos_token rows in
  ((exists examples, mapped = Returned examples)
   <-> forall row, In row rows ->
                   exists dp, columns row = Some dp /\ ~ empty_encoding dp)
  /\ (forall key,
         mapped = RaisedKeyError key ->
         (key = "instruction" \/ key = "input" \/ key = "output")
         /\ exists row, In row rows /\ getitem row key = None)
  /\ (forall e,
         mapped = Raised e ->
         e = IndexError
         /\ exists row dp,
             In row rows /\ columns row = Some dp /\ empty_encoding dp).
Proof.
  cbv zeta. induction rows as [|row rows [IHr [IHk IHe]]].
  - cbn. split; [|split; discriminate].
    split; [intros _ row [] | eauto].
  - cbn [dataset_map_rows].
    destruct (generate_row_cases tokenizer cutoff_len train_on_inputs add_eos_token row)
      as [[dp [C ->]] | [C [key [-> [K Hk]]]]].
    + destruct (generate_and_tokenize_prompt tokenizer cutoff_len train_on_inputs
                  add_eos_token dp) as [ex|e0] eqn:G.
      * assert (NB : ~ (enc_input_ids (call tokenizer cutoff_len (full_prompt dp)) = []
                        \/ (train_on_inputs = false
                            /\ enc_input_ids (call tokenizer cutoff_len (user_prompt dp))
                               = []))).
        { intros B.
          assert (R : generate_and_tokenize_prompt tokenizer cutoff_len train_on_inputs
                        add_eos_token dp = Raise IndexError)
            by (apply generate_raises_iff; auto).
          rewrite R in G. discriminate. }
        destruct (dataset_map_rows tokenizer cutoff_len train_on_inputs add_eos_token rows)
          as [exs|e1|key1] eqn:M.
        -- split; [|split; discriminate].
           split; [|eauto]. intros _ row' [<-|Hr]; [eauto|].
           destruct IHr as [IHr _]. apply IHr; eauto.
        -- split; [|split; [discriminate|]].
           ++ split; [intros [x H]; discriminate|]. intros H.
              destruct IHr as [_ IHr]. destruct IHr as [x Hx]; [|discriminate].
              intros row' Hr. apply H. now right.
           ++ intros e H. injection H as <-.
              destruct (IHe e1 eq_refl) as [-> [row' [dp' [Hr B]]]].
              split; [reflexivity|]. exists row', dp'. split; [now right | exact B].
        -- split; [|split; [|discriminate]].
           ++ split; [intros [x H]; discriminate|]. intros H.
              destruct IHr as [_ IHr]. destruct IHr as [x Hx]; [|discriminate].
              intros row' Hr. apply H. now right.
           ++ intros key H. injection H as <-.
              destruct (IHk key1 eq_refl) as [Hk [row' [Hr K]]].
              split; [exact Hk|]. exists row'. split; [now right | exact K].
      * apply generate_raises_iff in G. destruct G as [-> B].
        split; [|split; [discriminate|]].
        -- split; [intros [x H]; discriminate|]. intros H.
           destruct (H row (or_introl eq_refl)) as [dp' [C' NB]].
           rewrite C in C'. injection C' as <-. contradiction.
        -- intros e H. injection H as <-. split; [reflexivity|].
           exists row, dp. split; [now left | auto].
    + split; [|split; [|discriminate]].
      * split; [intros [x H]; discriminate|]. intros H.
        destruct (H row (or_introl eq_refl)) as [dp' [C' _]].
        rewrite C in C'. discriminate.
      * intros key' H. injection H as <-. split; [exact Hk|].
        exists row. split; [now left | exact K].
Qed.

Lemma dataset_map_rows_outcome_witness :
  dataset_map_rows byte_tokenizer 4096 false false
    [[("instruction", "Say hi."); ("input", ""); ("output", "hi")];
     [("instruction", "Stop."); ("input", "")]]
  = RaisedKeyError "output"
  /\ exists row,
      In row [[("instruction", "Say hi."); ("input", ""); ("output", "hi")];
              [("instruction", "Stop."); ("input", "")]]
      /\ getitem row "output" = None.
Proof.
  split; [reflexivity|].
  destruct (dataset_map_rows_outcome byte_tokenizer 4096 false false
              [[("instruction", "Say hi."); ("input", ""); ("output", "hi")];
               [("instruction", "Stop."); ("input", "")]]) as [_ [K _]].
  exact (proj2 (K "output" eq_refl)).
Defined.

(** * Further properties of [train] *)

Section MoreEventFacts.

Variable a : Args.t.
Variable w : World.

(** The events after [accumulation_steps], by the block that makes
    them. *)
Lemma In_after_steps_blocks (e : event) (dm : device_map) (g : Z) :
  In e (trace_after_steps a w dm g) ->
  exists model r,
    snd (resume_checkpoint a w (adapted_model a dm)) = Ok (model, r)
    /\ (In e (fst (load_model a w dm))
        \/ In e (fst (attach_adapter a (from_pretrained (Args.base_model a) true float16 dm)))
        \/ In e (fst (load_data a w))
        \/ In e (fst (resume_checkpoint a w (adapted_model a dm)))
        \/ e = call_print_trainable_parameters model
        \/ In e (fst (tokenize_datasets a w (tokenizer_of w (Args.base_model a))
                        (loaded_rows a w)))
        \/ exists td vd,
            snd (tokenize_datasets a w (tokenizer_of w (Args.base_model a))
                   (loaded_rows a w)) = Ok (td, vd)
            /\ (In e (fst (make_trainer a w model td vd g))
                \/ In e (fst (run_and_save a w model r)))).
Proof.
  destruct (resume_checkpoint_returns a w (adapted_model a dm)) as [model [r R]].
  intros H. exists model, r. split; [exact R|].
  unfold trace_after_steps in H. cbv zeta in H. rewrite R in H.
  rewrite !in_app_iff in H.
  destruct H as [H | [H | [H | [H | [H | [H | H]]]]]]; auto 8.
  - destruct H as [<-|[]]. auto 8.
  - do 6 right.
    destruct (snd (tokenize_datasets a w _ (loaded_rows a w))) as [[td vd]|e4];
      [|destruct H].
    exists td, vd. split; [reflexivity|]. now rewrite in_app_iff in H.
Qed.

(** A step of the pipeline is made by the loading blocks, by the mapping
    of the datasets, or by the last block. *)
Lemma In_step_event (e : event) :
  In e (fst (train a w)) ->
  step_of e <> None ->
  exists dm g model r,
    snd (print_arguments a w) = Ok tt
    /\ snd (accumulation_steps a w) = Ok (dm, g)
    /\ snd (resume_checkpoint a w (adapted_model a dm)) = Ok (model, r)
    /\ (In e (fst (load_model a w dm))
        \/ In e (fst (attach_adapter a (from_pretrained (Args.base_model a) true float16 dm)))
        \/ In e (fst (load_data a w))
        \/ (exists l, e = call_map l)
        \/ (snd (train a w) = Ok tt /\ In e (fst (run_and_save a w model r)))).
Proof.
  intros H S. apply In_train in H.
  destruct H as [-> | [[p ->] | [dm [g [P [A H]]]]]];
    [now destruct S | now destruct S |].
  apply In_after_steps_blocks in H. destruct H as [model [r [R H]]].
  exists dm, g, model, r. repeat (split; [assumption|]).
  destruct H as [H | [H | [H | [H | [H | [H | H]]]]]]; auto 8.
  - pose proof (resume_checkpoint_no_step a w (adapted_model a dm)) as N.
    rewrite Forall_forall in N. destruct (N _ H) as [E _]. now destruct S.
  - subst e. now destruct S.
  - pose proof (tokenize_datasets_events a w (tokenizer_of w (Args.base_model a))
                  (loaded_rows a w)) as N.
    rewrite Forall_forall in N.
    destruct (N _ H) as [[ex ->] | [[n ->] | [l ->]]];
      [now destruct S | now destruct S | eauto 6].
  - destruct H as [td [vd [T [H|H]]]].
    + destruct (make_trainer_run a w model td vd g) as [pre [E Q]].
      rewrite E in H. cbn [fst] in H. rewrite in_app_iff in H. exfalso.
      destruct H as [H|H].
      * destruct Q as [-> | ->]; cbn in H; [destruct H|].
        destruct H as [<-|[]]. now destruct S.
      * cbn in H. destruct H as [<-|[<-|[]]]; now destruct S.
    + do 4 right. split; [|exact H].
      rewrite train_outcome, P, A, T. reflexivity.
Qed.

End MoreEventFacts.

(** X8: without a base model [train] stops at the assertion of line 108:
    it raises AssertionError having called no library, and printed the
    arguments only in the process of local rank 0. *)
Theorem empty_base_model_stops_at_assertion (a : Args.t) (w : World) :
  Py.truthy (Args.base_model a) = false ->
  train a w
  = (if local_rank w =? 0 then [print (printed_arguments a)] else [],
     Raise AssertionError).
Proof.
  intros H. unfold train. rewrite print_arguments_run, H.
  destruct (local_rank w =? 0); reflexivity.
Qed.

Lemma empty_base_model_stops_at_assertion_witness :
  train Args.default worker_world = ([], Raise AssertionError).
Proof.
  apply (empty_base_model_stops_at_assertion Args.default worker_world).
  reflexivity.
Defined.

(** X9: WORLD_SIZE = 0 differs from 1, so line 120 divides by it: with a
    base model and a non-zero micro batch size, [train] raises
    ZeroDivisionError before any model, tokenizer or dataset is loaded. *)
Theorem zero_world_size_raises (a : Args.t) (w : World) :
  Py.truthy (Args.base_model a) = true ->
  Args.micro_batch_size a <> 0 ->
  world_size w = 0 ->
  snd (train a w) = Raise ZeroDivisionError
  /\ pipeline (fst (train a w)) = []
  /\ In (print (printed_device_map (device_of_rank (local_rank w)))) (fst (train a w)).
Proof.
  intros B M W.
  assert (A : accumulation_steps a w
              = ([print (printed_world_size 0);
                  print (printed_device_map (device_of_rank (local_rank w)))],
                 Raise ZeroDivisionError)).
  { unfold accumulation_steps, Py.floordiv, ddp. rewrite W.
    destruct (Z.eqb_spec (Args.micro_batch_size a) 0); [contradiction|].
    reflexivity. }
  split; [|split].
  - rewrite train_outcome, print_arguments_run, B, A. reflexivity.
  - rewrite train_trace, print_arguments_run, B, A. cbn [fst snd].
    rewrite pipeline_app. now destruct (local_rank w =? 0).
  - rewrite train_trace, print_arguments_run, B, A. cbn [fst snd].
    rewrite !in_app_iff. right. left. cbn. auto.
Qed.

Lemma zero_world_size_raises_witness :
  snd (train demo_args
         {| LOCAL_RANK := Some 0; WORLD_SIZE := Some 0;
            tokenizer_of := tokenizer_of demo_world;
            dataset_of := dataset_of demo_world;
            shuffle := shuffle demo_world;
            train_test_split := train_test_split demo_world;
            path_exists := path_exists demo_world;
            cuda_device_count := 1;
            torch_version_ge_2 := true;
            platform_win32 := false |})
  = Raise ZeroDivisionError.
Proof.
  apply zero_world_size_raises; [reflexivity | discriminate | reflexivity].
Defined.

(** X10: without a validation set, an empty dataset makes line 269 raise
    IndexError on [train_data[0]]: the model, the adapter and the dataset
    have been loaded and the (empty) mapping made, but no trainer is built,
    nothing is trained and nothing is saved. *)
Theorem empty_dataset_raises_at_first_sample (a : Args.t) (w : World) :
  Py.truthy (Args.base_model a) = true ->
  Args.micro_batch_size a <> 0 ->
  world_size w <> 0 ->
  Args.val_set_size a <= 0 ->
  shuffle w (loaded_rows a w) = [] ->
  snd (train a w) = Raise IndexError
  /\ pipeline (fst (train a w))
     = [step_load_base_model; step_load_tokenizer;
        step_prepare_int8; step_get_peft_model;
        step_load_dataset; step_tokenize_dataset]
  /\ forall m td vd ta, ~ In (call_Trainer m td vd ta) (fst (train a w)).
Proof.
  intros B M W V E.
  assert (T : tokenize_datasets a w (tokenizer_of w (Args.base_model a))
                (loaded_rows a w)
              = ([call_map []], Raise IndexError)).
  { unfold tokenize_datasets.
    destruct (Z.gtb_spec (Args.val_set_size a) 0); [lia|].
    rewrite E. reflexivity. }
  assert (A : exists dm g, snd (accumulation_steps a w) = Ok (dm, g)).
  { rewrite accumulation_steps_outcome. unfold Py.floordiv.
    destruct (Z.eqb_spec (Args.micro_batch_size a) 0); [contradiction|].
    cbn [bind]. destruct (ddp w); [|eauto].
    destruct (Z.eqb_spec (world_size w) 0); [contradiction|]. cbn [bind]. eauto. }
  destruct A as [dm [g A]].
  split; [|split].
  - rewrite train_outcome, print_arguments_run, B, A, T. reflexivity.
  - rewrite train_trace, print_arguments_run, B, A. cbn [fst snd].
    rewrite !pipeline_app, pipeline_steps, pipeline_after_steps, T.
    now destruct (local_rank w =? 0).
  - intros m td vd ta H. apply In_call_Trainer in H.
    destruct H as [dm' [g' [r [_ [_ [D _]]]]]]. rewrite T in D. discriminate.
Qed.

Lemma empty_dataset_raises_at_first_sample_witness :
  snd (train demo_args
         {| LOCAL_RANK := None; WORLD_SIZE := None;
            tokenizer_of := tokenizer_of demo_world;
            dataset_of := fun _ _ => [];
            shuffle := shuffle demo_world;
            train_test_split := train_test_split demo_world;
            path_exists := path_exists demo_world;
            cuda_device_count := 1;
            torch_version_ge_2 := true;
            platform_win32 := false |})
  = Raise IndexError.
Proof.
  apply empty_dataset_raises_at_first_sample;
    [reflexivity | discriminate | discriminate | discriminate | reflexivity].
Defined.

(** The trace of a run that returns ends with the events of the last
    block. *)
Lemma train_trace_ends_with_run_and_save (a : Args.t) (w : World) :
  snd (train a w) = Ok tt ->
  exists dm g model r front,
    snd (accumulation_steps a w) = Ok (dm, g)
    /\ snd (resume_checkpoint a w (adapted_model a dm)) = Ok (model, r)
    /\ fst (train a w) = front ++ fst (run_and_save a w model r).
Proof.
  intros H. rewrite train_outcome in H.
  destruct (snd (print_arguments a w)) as [[]|e0] eqn:P; [|discriminate].
  destruct (snd (accumulation_steps a w)) as [[dm g]|e1] eqn:A; [|discriminate].
  destruct (snd (tokenize_datasets a w (tokenizer_of w (Args.base_model a))
                   (loaded_rows a w))) as [[td vd]|e4] eqn:T; [|discriminate].
  destruct (resume_checkpoint_returns a w (adapted_model a dm)) as [model [r R]].
  exists dm, g, model, r.
  exists (fst (print_arguments a w) ++ fst (accumulation_steps a w)
          ++ fst (load_model a w dm)
          ++ fst (attach_adapter a (from_pretrained (Args.base_model a) true float16 dm))
          ++ fst (load_data a w)
          ++ fst (resume_checkpoint a w (adapted_model a dm))
          ++ [call_print_trainable_parameters model]
          ++ fst (tokenize_datasets a w (tokenizer_of w (Args.base_model a))
                    (loaded_rows a w))
          ++ fst (make_trainer a w model td vd g)).
  split; [reflexivity|]. split; [exact R|].
  rewrite train_trace, P, A. unfold trace_after_steps. cbv zeta.
  rewrite R, T. rewrite <- !app_assoc. reflexivity.
Qed.

(** X11: the save calls [train] itself makes (lines 325-329) come last:
    whenever one of them is in the trace, the trace ends with the call of
    [trainer.train] followed by [save_pretrained] to [output_dir],
    [torch.save] to [output_dir/pytorch_model.bin] and the tokenizer's
    [save_pretrained] to [output_dir]; none is made before the training
    loop has been called. *)
Theorem final_saves_follow_the_training_loop (a : Args.t) (w : World) (e : event) :
  In e (fst (train a w)) ->
  step_of e = Some step_save_adapter
  \/ step_of e = Some step_save_placeholder
  \/ step_of e = Some step_save_tokenizer ->
  exists front r saved,
    fst (train a w)
    = front
      ++ [call_trainer_train r;
          call_save_pretrained saved (Args.output_dir a);
          call_torch_save (Py.path_join (Args.output_dir a) "pytorch_model.bin");
          call_tokenizer_save_pretrained (Args.output_dir a)]
    /\ In e [call_save_pretrained saved (Args.output_dir a);
             call_torch_save (Py.path_join (Args.output_dir a) "pytorch_model.bin");
             call_tokenizer_save_pretrained (Args.output_dir a)].
Proof.
  intros H S.
  assert (N : step_of e <> None) by (destruct S as [S|[S|S]]; rewrite S; discriminate).
  destruct (In_step_event a w e H N) as [dm [g [model [r [_ [A [R C]]]]]]].
  destruct C as [C | [C | [C | [[l ->] | [K C]]]]].
  - rewrite load_model_run in C. cbn in C. exfalso.
    destruct C as [<-|[<-|[<-|[]]]]; destruct S as [S|[S|S]]; discriminate.
  - rewrite attach_adapter_run in C. cbn in C. exfalso.
    destruct C as [<-|[<-|[]]]; destruct S as [S|[S|S]]; discriminate.
  - destruct (load_data_run a w) as [path [files L]]. rewrite L in C. cbn in C.
    exfalso. destruct C as [<-|[]]; destruct S as [S|[S|S]]; discriminate.
  - exfalso. destruct S as [S|[S|S]]; discriminate.
  - destruct (train_trace_ends_with_run_and_save a w K)
      as [dm' [g' [model' [r' [front [A' [R' T]]]]]]].
    rewrite A in A'. injection A' as <- <-.
    rewrite R in R'. injection R' as <- <-.
    unfold run_and_save in C, T.
    destruct (torch_version_ge_2 w && negb (platform_win32 w));
      cbn [tbind emit ret fst snd app] in C, T.
    + exists (front ++ [call_torch_compile model;
                        print (printed_resume_from_checkpoint r)]), r,
        (torch_compile model).
      split; [rewrite T, <- app_assoc; reflexivity|].
      cbn in C |- *.
      destruct C as [<-|[<-|[<-|[<-|[<-|[<-|[]]]]]]]; auto;
        exfalso; destruct S as [S|[S|S]]; discriminate.
    + exists (front ++ [print (printed_resume_from_checkpoint r)]), r, model.
      split; [rewrite T, <- app_assoc; reflexivity|].
      cbn in C |- *.
      destruct C as [<-|[<-|[<-|[<-|[<-|[]]]]]]; auto;
        exfalso; destruct S as [S|[S|S]]; discriminate.
Qed.

Lemma final_saves_follow_the_training_loop_witness :
  exists front r saved,
    fst (train demo_args demo_world)
    = front
      ++ [call_trainer_train r;
          call_save_pretrained saved "out";
          call_torch_save "out/pytorch_model.bin";
          call_tokenizer_save_pretrained "out"].
Proof.
  assert (H : In (call_torch_save "out/pytorch_model.bin")
                 (fst (train demo_args demo_world)))
    by (vm_compute; find_event).
  destruct (final_saves_follow_the_training_loop demo_args demo_world _ H)
    as [front [r [saved [T _]]]]; [auto|].
  exists front, r, saved. exact T.
Defined.

(** X12: the base model is loaded with [device_map="auto"] when
    WORLD_SIZE is 1 or unset, and on the device of the local rank
    otherwise; the model-parallel flags are set only in a single process
    that sees more than one GPU. *)
Theorem device_map_follows_world_size (a : Args.t) (w : World) :
  (forall b l dt dm,
      In (call_model_from_pretrained b l dt dm) (fst (train a w)) ->
      dm = if world_size w =? 1 then device_auto
           else device_of_rank (local_rank w))
  /\ (forall m,
         In (set_model_parallel m) (fst (train a w)) ->
         world_size w = 1 /\ cuda_device_count w > 1).
Proof.
  split.
  - intros b l dt dm H.
    destruct (In_step_event a w _ H) as [dm' [g [model [r [_ [A [_ C]]]]]]];
      [discriminate|].
    assert (D : dm = dm').
    { destruct C as [C | [C | [C | [[x C] | [_ C]]]]].
      - rewrite load_model_run in C. cbn in C.
        destruct C as [C|[C|[C|[]]]]; try discriminate. now injection C.
      - rewrite attach_adapter_run in C. cbn in C.
        destruct C as [C|[C|[]]]; discriminate.
      - destruct (load_data_run a w) as [path [files L]]. rewrite L in C.
        destruct C as [C|[]]. discriminate.
      - discriminate.
      - destruct (run_and_save_run a w model r) as [pre [model' [E Q]]].
        rewrite E in C. cbn [fst] in C. rewrite in_app_iff in C.
        destruct C as [C|C].
        + destruct Q as [[-> _] | [-> _]]; cbn in C; [destruct C|].
          destruct C as [C|[]]. discriminate.
        + cbn in C. repeat (destruct C as [C|C]; [discriminate|]). destruct C. }
    subst dm'. rewrite accumulation_steps_outcome in A. unfold ddp in A.
    destruct (Py.floordiv (Args.batch_size a) (Args.micro_batch_size a)) as [g0|e0];
      [|discriminate].
    cbn [bind] in A. destruct (world_size w =? 1); cbn [negb] in A.
    + now injection A as <- _.
    + destruct (Py.floordiv g0 (world_size w)); [|discriminate].
      cbn [bind] in A. now injection A as <- _.
  - intros m H. apply In_train in H.
    destruct H as [H | [[p H] | [dm [g [_ [_ H]]]]]]; try discriminate.
    apply In_after_steps_blocks in H. destruct H as [model [r [_ H]]].
    destruct H as [H | [H | [H | [H | [H | [H | H]]]]]].
    + rewrite load_model_run in H. cbn in H.
      repeat (destruct H as [H|H]; [discriminate|]). destruct H.
    + rewrite attach_adapter_run in H. cbn in H.
      repeat (destruct H as [H|H]; [discriminate|]). destruct H.
    + destruct (load_data_run a w) as [path [files L]]. rewrite L in H.
      destruct H as [H|[]]. discriminate.
    + pose proof (resume_checkpoint_no_step a w (adapted_model a dm)) as N.
      rewrite Forall_forall in N. destruct (N _ H) as [_ ?].
      exfalso. clear - H. unfold resume_checkpoint in H.
      repeat match type of H with
             | context [match ?c with _ => _ end] => destruct c
             end; cbn in H;
        repeat (destruct H as [H|H]; [discriminate|]); destruct H.
    + discriminate.
    + pose proof (tokenize_datasets_events a w (tokenizer_of w (Args.base_model a))
                    (loaded_rows a w)) as N.
      rewrite Forall_forall in N.
      destruct (N _ H) as [[ex E] | [[n E] | [l E]]]; discriminate.
    + destruct H as [td [vd [_ [H|H]]]].
      * unfold make_trainer, ddp in H.
        destruct (Z.eqb_spec (world_size w) 1) as [W|W]; cbn [negb andb] in H.
        -- destruct (Z.gtb_spec (cuda_device_count w) 1) as [C|C].
           ++ split; [exact W | lia].
           ++ cbn in H. repeat (destruct H as [H|H]; [discriminate|]). destruct H.
        -- cbn in H. repeat (destruct H as [H|H]; [discriminate|]). destruct H.
      * destruct (run_and_save_run a w model r) as [pre [model' [E Q]]].
        rewrite E in H. cbn [fst] in H. rewrite in_app_iff in H.
        destruct H as [H|H].
        -- destruct Q as [[-> _] | [-> _]]; cbn in H; [destruct H|].
           destruct H as [H|[]]. discriminate.
        -- cbn in H. repeat (destruct H as [H|H]; [discriminate|]). destruct H.
Qed.

Lemma device_map_follows_world_size_witness :
  In (call_model_from_pretrained "huggyllama/llama-7b" true float16 (device_of_rank 1))
     (fst (train demo_args worker_world)).
Proof.
  assert (H : exists dm,
             In (call_model_from_pretrained "huggyllama/llama-7b" true float16 dm)
                (fst (train demo_args worker_world)))
    by (eexists; vm_compute; find_event).
  destruct H as [dm H].
  destruct (device_map_follows_world_size demo_args worker_world) as [D _].
  pose proof (D _ _ _ _ H) as E. cbn in E. now subst dm.
Defined.

(** X13: the trainer is built before [torch.compile] is applied, so it
    holds the model as the checkpoint block left it, while
    [save_pretrained] is called on the compiled model when torch is at
    least 2 and the platform is not win32, and on the same model
    otherwise. *)
Theorem trainer_holds_uncompiled_model (a : Args.t) (w : World)
    (m m' : Model) (td : list Example) (vd : option (list Example))
    (ta : TrainingArguments.t) (dir : string) :
  In (call_Trainer m td vd ta) (fst (train a w)) ->
  In (call_save_pretrained m' dir) (fst (train a w)) ->
  m' = if torch_version_ge_2 w && negb (platform_win32 w)
       then torch_compile m else m.
Proof.
  intros HT HS.
  destruct (In_call_Trainer a w _ _ _ _ HT) as [dm [g [r [A [R _]]]]].
  destruct (In_step_event a w _ HS) as [dm' [g' [model [r' [_ [A' [R' C]]]]]]];
    [discriminate|].
  rewrite A in A'. injection A' as <- <-.
  rewrite R in R'. injection R' as <- <-.
  destruct C as [C | [C | [C | [[x C] | [_ C]]]]].
  - rewrite load_model_run in C. cbn in C.
    repeat (destruct C as [C|C]; [discriminate|]). destruct C.
  - rewrite attach_adapter_run in C. cbn in C.
    repeat (destruct C as [C|C]; [discriminate|]). destruct C.
  - destruct (load_data_run a w) as [path [files L]]. rewrite L in C.
    destruct C as [C|[]]. discriminate.
  - discriminate.
  - unfold run_and_save in C.
    destruct (torch_version_ge_2 w && negb (platform_win32 w)); cbn in C;
      repeat (destruct C as [C|C]; [try discriminate; now injection C|]);
      destruct C.
Qed.

Lemma trainer_holds_uncompiled_model_witness :
  exists m td vd ta,
    In (call_Trainer m td vd ta) (fst (train demo_args demo_world))
    /\ In (call_save_pretrained (torch_compile m) "out")
          (fst (train demo_args demo_world)).
Proof.
  assert (H : exists m td vd ta m' dir,
             In (call_Trainer m td vd ta) (fst (train demo_args demo_world))
             /\ In (call_save_pretrained m' dir) (fst (train demo_args demo_world))
             /\ dir = "out").
  { do 6 eexists. vm_compute. split; [|split].
    - find_event.
    - find_event.
    - reflexivity. }
  destruct H as [m [td [vd [ta [m' [dir [HT [HS ->]]]]]]]].
  exists m, td, vd, ta. split; [exact HT|].
  rewrite (trainer_holds_uncompiled_model _ _ _ _ _ _ _ _ HT HS) in HS. exact HS.
Defined.

(** The checkpoint block when the full checkpoint is on disk. *)
Lemma resume_checkpoint_full (a : Args.t) (w : World) (path : string) (model : Model) :
  Args.resume_from_checkpoint a = Some path ->
  Py.truthy path = true ->
  path_exists w (Py.path_join path "pytorch_model.bin") = true ->
  resume_checkpoint a w model
  = ([print (printed_restarting_from (Py.path_join path "pytorch_model.bin"));
      call_torch_load (Py.path_join path "pytorch_model.bin");
      call_set_peft_model_state_dict model (Py.path_join path "pytorch_model.bin")],
     Ok (set_peft_model_state_dict model (Py.path_join path "pytorch_model.bin"),
         resume_path path)).
Proof.
  intros G T F. unfold resume_checkpoint. rewrite G, T, F. cbn [negb].
  now rewrite F.
Qed.

(** X14: when the directory named by [resume_from_checkpoint] holds
    [pytorch_model.bin], the weights are read from that file, the adapter
    file is not read, and [trainer.train] receives the path itself, so the
    trainer resumes its state. *)
Theorem full_checkpoint_keeps_resume_path (a : Args.t) (w : World) (path : string) :
  Args.resume_from_checkpoint a = Some path ->
  Py.truthy path = true ->
  path_exists w (Py.path_join path "pytorch_model.bin") = true ->
  let checkpoint_name := Py.path_join path "pytorch_model.bin" in
  (forall r, In (call_trainer_train r) (fst (train a w)) -> r = resume_path path)
  /\ (forall e,
         In e (fst (train a w)) -> is_checkpoint_call e = true ->
         e = call_torch_load checkpoint_name
         \/ exists dm,
             e = call_set_peft_model_state_dict (adapted_model a dm) checkpoint_name)
  /\ (forall m td vd ta,
         In (call_Trainer m td vd ta) (fst (train a w)) ->
         exists dm,
           m = set_peft_model_state_dict (adapted_model a dm) checkpoint_name).
Proof.
  intros G T F checkpoint_name. split; [|split].
  - intros r H. apply In_call_trainer_train in H. destruct H as [dm [model R]].
    rewrite (resume_checkpoint_full a w path _ G T F) in R. now injection R as _ <-.
  - intros e H C. apply In_checkpoint_call in H; [|exact C].
    destruct H as [dm H].
    rewrite (resume_checkpoint_full a w path _ G T F) in H. cbn in H.
    destruct H as [<-|[<-|[<-|[]]]]; [discriminate | auto | eauto].
  - intros m td vd ta H. apply In_call_Trainer in H.
    destruct H as [dm [g [r [_ [R _]]]]]. exists dm.
    rewrite (resume_checkpoint_full a w path _ G T F) in R. now injection R as <- _.
Qed.

Lemma full_checkpoint_keeps_resume_path_witness :
  In (call_trainer_train (resume_path "ckpt"))
     (fst (train (resumed_from demo_args "ckpt")
             {| LOCAL_RANK := None; WORLD_SIZE := None;
                  tokenizer_of := tokenizer_of demo_world;
                  dataset_of := dataset_of demo_world;
                  shuffle := shuffle demo_world;
                  train_test_split := train_test_split demo_world;
                  path_exists := fun _ => true;
                  cuda_device_count := 1;
                  torch_version_ge_2 := true;
                  platform_win32 := false |})).
Proof.
  assert (H : exists r,
             In (call_trainer_train r)
                (fst (train (resumed_from demo_args "ckpt")
                        {| LOCAL_RANK := None; WORLD_SIZE := None;
                  tokenizer_of := tokenizer_of demo_world;
                  dataset_of := dataset_of demo_world;
                  shuffle := shuffle demo_world;
                  train_test_split := train_test_split demo_world;
                  path_exists := fun _ => true;
                  cuda_device_count := 1;
                  torch_version_ge_2 := true;
                  platform_win32 := false |})))
    by (eexists; vm_compute; find_event).
  destruct H as [r H].
  destruct (full_checkpoint_keeps_resume_path (resumed_from demo_args "ckpt")
              {| LOCAL_RANK := None; WORLD_SIZE := None;
                  tokenizer_of := tokenizer_of demo_world;
                  dataset_of := dataset_of demo_world;
                  shuffle := shuffle demo_world;
                  train_test_split := train_test_split demo_world;
                  path_exists := fun _ => true;
                  cuda_device_count := 1;
                  torch_version_ge_2 := true;
                  platform_win32 := false |}
              "ckpt" eq_refl eq_refl eq_refl) as [R _].
  rewrite <- (R r H). exact H.
Defined.

(** X15: when [resume_from_checkpoint] is left out or is the empty
    string, the file system is not looked at for a checkpoint: no weights
    are loaded, the trainer gets the adapted model as attached, and
    [trainer.train] receives the argument as it was given. *)
Theorem no_checkpoint_without_resume (a : Args.t) (w : World) :
  Args.resume_from_checkpoint a = None \/ Args.resume_from_checkpoint a = Some "" ->
  (forall e, In e (fst (train a w)) -> is_checkpoint_call e = false)
  /\ (forall r, In (call_trainer_train r) (fst (train a w)) -> r = resume_argument a)
  /\ (forall m td vd ta,
         In (call_Trainer m td vd ta) (fst (train a w)) ->
         exists dm, m = adapted_model a dm).
Proof.
  intros G.
  assert (B : forall model,
             resume_checkpoint a w model = ([], Ok (model, resume_argument a))).
  { intros model. unfold resume_checkpoint, resume_argument.
    destruct G as [-> | ->]; reflexivity. }
  split; [|split].
  - intros e H. destruct (is_checkpoint_call e) eqn:C; [|reflexivity].
    apply In_checkpoint_call in H; [|exact C].
    destruct H as [dm H]. rewrite B in H. destruct H.
  - intros r H. apply In_call_trainer_train in H. destruct H as [dm [model R]].
    rewrite B in R. now injection R as _ <-.
  - intros m td vd ta H. apply In_call_Trainer in H.
    destruct H as [dm [g [r [_ [R _]]]]]. exists dm.
    rewrite B in R. now injection R as <- _.
Qed.

Lemma no_checkpoint_without_resume_witness :
  In (call_trainer_train resume_None) (fst (train demo_args adapter_world)).
Proof.
  assert (H : exists r, In (call_trainer_train r) (fst (train demo_args adapter_world)))
    by (eexists; vm_compute; find_event).
  destruct H as [r H].
  destruct (no_checkpoint_without_resume demo_args adapter_world (or_introl eq_refl))
    as [_ [R _]].
  change resume_None with (resume_argument demo_args).
  rewrite <- (R r H). exact H.
Defined.




(** X17: the dataset is loaded with the "json" builder on the file
    [data_path] exactly when [data_path] ends in ".json" or ".jsonl", and
    by its own name otherwise. *)
Theorem json_paths_use_the_json_builder (a : Args.t) (w : World)
    (path : string) (files : option string) :
  In (call_load_dataset path files) (fst (train a w)) ->
  if Py.endswith (Args.data_path a) ".json" || Py.endswith (Args.data_path a) ".jsonl"
  then path = "json" /\ files = Some (Args.data_path a)
  else path = Args.data_path a /\ files = None.
Proof.
  intros H.
  destruct (In_step_event a w _ H) as [dm [g [model [r [_ [_ [_ C]]]]]]];
    [discriminate|].
  destruct C as [C | [C | [C | [[x C] | [_ C]]]]].
  - rewrite load_model_run in C. cbn in C.
    repeat (destruct C as [C|C]; [discriminate|]). destruct C.
  - rewrite attach_adapter_run in C. cbn in C.
    repeat (destruct C as [C|C]; [discriminate|]). destruct C.
  - unfold load_data in C.
    destruct (Py.endswith (Args.data_path a) ".json"
              || Py.endswith (Args.data_path a) ".jsonl"); cbn in C;
      destruct C as [C|[]]; injection C as <- <-; auto.
  - discriminate.
  - destruct (run_and_save_run a w model r) as [pre [model' [E Q]]].
    rewrite E in C. cbn [fst] in C. rewrite in_app_iff in C.
    destruct C as [C|C].
    + destruct Q as [[-> _] | [-> _]]; cbn in C; [destruct C|].
      destruct C as [C|[]]. discriminate.
    + cbn in C. repeat (destruct C as [C|C]; [discriminate|]). destruct C.
Qed.

Lemma json_paths_use_the_json_builder_witness :
  In (call_load_dataset "json" (Some "alpaca.json")) (fst (train demo_args demo_world)).
Proof.
  assert (H : exists path files,
             In (call_load_dataset path files) (fst (train demo_args demo_world)))
    by (do 2 eexists; vm_compute; find_event).
  destruct H as [path [files H]].
  pose proof (json_paths_use_the_json_builder demo_args demo_world path files H) as E.
  cbn in E. destruct E as [-> ->]. exact H.
Defined.

Lemma accumulation_steps_print_kinds (a : Args.t) (w : World) :
  Forall (fun e => (exists n, e = print (printed_world_size n))
                   \/ (exists dm, e = print (printed_device_map dm))
                   \/ (exists n, e = print (printed_gradient_accumulation_steps n)))
         (fst (accumulation_steps a w)).
Proof.
  unfold accumulation_steps, Py.floordiv, lift.
  destruct (Args.micro_batch_size a =? 0); [constructor|].
  destruct (ddp w); cbn.
  - destruct (world_size w =? 0); cbn; list_all.
  - list_all.
Qed.

(** X18: the first sample is printed only when no validation set is made
    (the prints sit in the [else] branch of line 263), and what is printed
    is the first example of the mapped, shuffled dataset. *)
Theorem first_sample_printed_without_validation_only
    (a : Args.t) (w : World) (ex : Example) :
  In (print (printed_first_sample ex)) (fst (train a w)) ->
  Args.val_set_size a <= 0
  /\ exists train_data,
      dataset_map (tokenizer_of w (Args.base_model a)) (Args.cutoff_len a)
        (Args.train_on_inputs a) (Args.add_eos_token a)
        (shuffle w (loaded_rows a w)) = Ok train_data
      /\ hd_error train_data = Some ex.
Proof.
  intros H. rewrite train_trace, in_app_iff in H. destruct H as [H|H].
  { rewrite print_arguments_run in H. cbn [fst] in H.
    destruct (local_rank w =? 0); [|destruct H].
    destruct H as [H|[]]. discriminate. }
  destruct (snd (print_arguments a w)) as [[]|e0]; [|destruct H].
  rewrite in_app_iff in H. destruct H as [H|H].
  { pose proof (accumulation_steps_print_kinds a w) as N.
    rewrite Forall_forall in N.
    destruct (N _ H) as [[n E] | [[dm E] | [n E]]]; discriminate. }
  destruct (snd (accumulation_steps a w)) as [[dm g]|e1]; [|destruct H].
  apply In_after_steps_blocks in H. destruct H as [model [r [_ H]]].
  destruct H as [H | [H | [H | [H | [H | [H | H]]]]]].
  - rewrite load_model_run in H. cbn in H.
    repeat (destruct H as [H|H]; [discriminate|]). destruct H.
  - rewrite attach_adapter_run in H. cbn in H.
    repeat (destruct H as [H|H]; [discriminate|]). destruct H.
  - destruct (load_data_run a w) as [path [files L]]. rewrite L in H.
    destruct H as [H|[]]. discriminate.
  - exfalso. unfold resume_checkpoint in H.
    repeat match type of H with
           | context [match ?c with _ => _ end] => destruct c
           end; cbn in H;
      repeat (destruct H as [H|H]; [discriminate|]); destruct H.
  - discriminate.
  - unfold tokenize_datasets in H.
    destruct (Z.gtb_spec (Args.val_set_size a) 0) as [V|V].
    + exfalso. cbn [tbind emit fst snd lift app] in H.
      destruct (dataset_map _ _ _ _ (shuffle w (fst _))) as [td|e]; cbn in H.
      * destruct (dataset_map _ _ _ _ (shuffle w (snd _))) as [vd|e]; cbn in H;
          repeat (destruct H as [H|H]; [discriminate|]); destruct H.
      * repeat (destruct H as [H|H]; [discriminate|]). destruct H.
    + split; [exact V|]. cbn [tbind emit fst snd lift app] in H.
      destruct (dataset_map _ _ _ _ (shuffle w (loaded_rows a w))) as [td|e];
        cbn in H; [|destruct H].
      exists td. split; [reflexivity|].
      destruct td as [|first td]; cbn in H.
      * destruct H as [H|[]]. discriminate.
      * destruct H as [H|[H|[]]]; [discriminate|]. now injection H as ->.
  - destruct H as [td [vd [_ [H|H]]]].
    + destruct (make_trainer_run a w model td vd g) as [pre [E Q]].
      rewrite E in H. cbn [fst] in H. rewrite in_app_iff in H.
      destruct H as [H|H].
      * destruct Q as [-> | ->]; cbn in H; [destruct H|].
        destruct H as [H|[]]. discriminate.
      * cbn in H. repeat (destruct H as [H|H]; [discriminate|]). destruct H.
    + destruct (run_and_save_run a w model r) as [pre [model' [E Q]]].
      rewrite E in H. cbn [fst] in H. rewrite in_app_iff in H.
      destruct H as [H|H].
      * destruct Q as [[-> _] | [-> _]]; cbn in H; [destruct H|].
        destruct H as [H|[]]. discriminate.
      * cbn in H. repeat (destruct H as [H|H]; [discriminate|]). destruct H.
Qed.

Lemma first_sample_printed_without_validation_only_witness :
  exists ex,
    In (print (printed_first_sample ex)) (fst (train demo_args demo_world))
    /\ Args.val_set_size demo_args <= 0.
Proof.
  assert (H : exists ex,
             In (print (printed_first_sample ex)) (fst (train demo_args demo_world)))
    by (eexists; vm_compute; find_event).
  destruct H as [ex H]. exists ex. split; [exact H|].
  exact (proj1 (first_sample_printed_without_validation_only _ _ _ H)).
Defined.

(** * The callbacks *)

Lemma string_append_cancel_l (s x y : string) :
  (s ++ x = s ++ y)%string -> x = y.
Proof.
  induction s as [|c s IH]; cbn; [auto|]. intros H. injection H as H. auto.
Qed.

Lemma truthy_append (s t : string) :
  Py.truthy (s ++ t) = Py.truthy s || Py.truthy t.
Proof. destruct s; reflexivity. Qed.

Lemma truthy_path_join (s t : string) :
  Py.truthy t = true -> Py.truthy (Py.path_join s t) = true.
Proof.
  intros H. unfold Py.path_join.
  destruct (prefix "/" t); [exact H|].
  destruct (negb (Py.truthy s) || Py.endswith s "/");
    rewrite !truthy_append, H; auto using orb_true_r.
Qed.

(** [str] of an int can be read back, so it tells two ints apart. *)
Lemma str_of_int_injective (n n' : Z) : str_of_int n = str_of_int n' -> n = n'.
Proof.
  unfold str_of_int. intros H.
  assert (N : forall z, Z.to_int z <> Decimal.Pos Decimal.Nil
                        /\ Z.to_int z <> Decimal.Neg Decimal.Nil).
  { intros [|p|p]; cbn; split; try discriminate;
      intros E; injection E as E; exact (Unsigned.to_uint_nonnil p E). }
  assert (E : Some (Z.to_int n) = Some (Z.to_int n')).
  { rewrite <- (NilZero.isi (Z.to_int n)) by apply N.
    rewrite <- (NilZero.isi (Z.to_int n')) by apply N.
    now rewrite H. }
  injection E as E.
  rewrite <- (DecimalZ.of_to n), <- (DecimalZ.of_to n'). now rewrite E.
Qed.

Section CallbackFacts.

Variable PREFIX_CHECKPOINT_DIR : string.
Variable TrainerControl : Type.

Lemma prefix_slash_step (x y : string) :
  prefix "/" (PREFIX_CHECKPOINT_DIR ++ "-" ++ x)
  = prefix "/" (PREFIX_CHECKPOINT_DIR ++ "-" ++ y).
Proof.
  destruct PREFIX_CHECKPOINT_DIR as [|c s]; cbn [append prefix]; [reflexivity|].
  assert (E : forall z, prefix "" z = true) by (intros [|? ?]; reflexivity).
  match goal with
  | |- context [if ?b then _ else _] => destruct b
  end; [now rewrite !E | reflexivity].
Qed.

Lemma checkpoint_folder_injective (output_dir : string) (n n' : Z) :
  checkpoint_folder PREFIX_CHECKPOINT_DIR output_dir n
  = checkpoint_folder PREFIX_CHECKPOINT_DIR output_dir n' ->
  n = n'.
Proof.
  unfold checkpoint_folder, Py.path_join.
  rewrite (prefix_slash_step (str_of_int n) (str_of_int n')).
  intros H. apply str_of_int_injective.
  destruct (prefix "/" (PREFIX_CHECKPOINT_DIR ++ "-" ++ str_of_int n'));
    [|destruct (negb (Py.truthy output_dir) || Py.endswith output_dir "/")].
  - apply string_append_cancel_l in H. now apply (string_append_cancel_l "-").
  - apply string_append_cancel_l in H. apply string_append_cancel_l in H.
    now apply (string_append_cancel_l "-").
  - do 3 apply string_append_cancel_l in H.
    now apply (string_append_cancel_l "-").
Qed.

Lemma checkpoint_folder_truthy (output_dir : string) (n : Z) :
  Py.truthy (checkpoint_folder PREFIX_CHECKPOINT_DIR output_dir n) = true.
Proof.
  apply truthy_path_join. rewrite truthy_append. apply orb_true_r.
Qed.

(** X19: [on_save] returns its control object as it came, and two
    different global steps are saved into two different folders: a later
    checkpoint never lands on an earlier one. *)
Theorem on_save_steps_have_their_own_folder
    (output_dir : string) (n n' : Z) (control : TrainerControl) (m m' : Model) :
  n <> n' ->
  snd (on_save PREFIX_CHECKPOINT_DIR TrainerControl output_dir n control m) = control
  /\ hd_error (fst (on_save PREFIX_CHECKPOINT_DIR TrainerControl output_dir n control m))
     = Some (call_save_pretrained m
               (checkpoint_folder PREFIX_CHECKPOINT_DIR output_dir n))
  /\ checkpoint_folder PREFIX_CHECKPOINT_DIR output_dir n
     <> checkpoint_folder PREFIX_CHECKPOINT_DIR output_dir n'
  /\ hd_error (fst (on_save PREFIX_CHECKPOINT_DIR TrainerControl output_dir n control m))
     <> hd_error (fst (on_save PREFIX_CHECKPOINT_DIR TrainerControl output_dir n'
                         control m')).
Proof.
  intros D. repeat split.
  - intros E. now apply D, (checkpoint_folder_injective output_dir).
  - cbn. intros E. injection E as _ E.
    now apply D, (checkpoint_folder_injective output_dir).
Qed.

(** X20: a folder written by [on_save] is taken by the checkpoint block
    of [train] for a full checkpoint: with [resume_from_checkpoint] naming
    it, the weights are read from the [pytorch_model.bin] the callback
    wrote and the folder is kept for [trainer.train]. *)
Theorem saved_checkpoint_resumes_as_full_checkpoint
    (output_dir : string) (n : Z) (control : TrainerControl) (m : Model)
    (a : Args.t) (w : World) (model : Model) :
  let folder := checkpoint_folder PREFIX_CHECKPOINT_DIR output_dir n in
  Args.resume_from_checkpoint a = Some folder ->
  (forall p,
      In p (torch_saved
              (fst (on_save PREFIX_CHECKPOINT_DIR TrainerControl output_dir n control m))) ->
      path_exists w p = true) ->
  resume_checkpoint a w model
  = ([print (printed_restarting_from (Py.path_join folder "pytorch_model.bin"));
      call_torch_load (Py.path_join folder "pytorch_model.bin");
      call_set_peft_model_state_dict model (Py.path_join folder "pytorch_model.bin")],
     Ok (set_peft_model_state_dict model (Py.path_join folder "pytorch_model.bin"),
         resume_path folder)).
Proof.
  intros folder G S.
  apply resume_checkpoint_full; [exact G | apply checkpoint_folder_truthy|].
  apply S. cbn. now left.
Qed.

(** X21: [on_train_end] raises TypeError, after its print and before any
    load, when there is no best checkpoint; with one, it returns its
    control object and reads the same adapter file, into the same model,
    as the checkpoint block of [train] does for that directory when it
    falls back to the adapter. *)
Theorem on_train_end_reads_the_adapter
    (best_metric : option float) (control : TrainerControl) (model : Model) :
  (snd (on_train_end TrainerControl None best_metric control model) = inr TypeError
   /\ library_calls (fst (on_train_end TrainerControl None best_metric control model))
      = [])
  /\ forall path a w,
      Args.resume_from_checkpoint a = Some path ->
      Py.truthy path = true ->
      path_exists w (Py.path_join path "pytorch_model.bin") = false ->
      path_exists w (Py.path_join path "adapter_model.bin") = true ->
      snd (on_train_end TrainerControl (Some path) best_metric control model)
      = inl control
      /\ library_calls
           (fst (on_train_end TrainerControl (Some path) best_metric control model))
         = filter is_checkpoint_call (fst (resume_checkpoint a w model)).
Proof.
  split; [split; reflexivity|].
  intros path a w G T F A. split; [reflexivity|].
  unfold resume_checkpoint. rewrite G, T, F. cbn [negb]. rewrite A. reflexivity.
Qed.

End CallbackFacts.

Lemma on_save_steps_have_their_own_folder_witness :
  checkpoint_folder "checkpoint" "out" 1000 = "out/checkpoint-1000"
  /\ checkpoint_folder "checkpoint" "out" 1000 <> checkpoint_folder "checkpoint" "out" 2000.
Proof.
  split; [reflexivity|].
  apply (on_save_steps_have_their_own_folder "checkpoint" unit "out" 1000 2000 tt
           (torch_compile (from_pretrained "" true float16 device_auto))
           (torch_compile (from_pretrained "" true float16 device_auto))).
  discriminate.
Defined.

Lemma saved_checkpoint_resumes_as_full_checkpoint_witness :
  snd (resume_checkpoint (resumed_from demo_args "out/checkpoint-1000")
         {| LOCAL_RANK := None; WORLD_SIZE := None;
            tokenizer_of := tokenizer_of demo_world;
            dataset_of := dataset_of demo_world;
            shuffle := shuffle demo_world;
            train_test_split := train_test_split demo_world;
            path_exists :=
              fun p => String.eqb p "out/checkpoint-1000/pytorch_model.bin";
            cuda_device_count := 1;
            torch_version_ge_2 := true;
            platform_win32 := false |}
         (adapted_model demo_args device_auto))
  = Ok (set_peft_model_state_dict (adapted_model demo_args device_auto)
          "out/checkpoint-1000/pytorch_model.bin",
        resume_path "out/checkpoint-1000").
Proof.
  rewrite (saved_checkpoint_resumes_as_full_checkpoint "checkpoint" unit "out" 1000 tt
             (adapted_model demo_args device_auto)).
  - reflexivity.
  - reflexivity.
  - intros p H. cbn in H. destruct H as [<-|[]]. reflexivity.
Defined.

Lemma on_train_end_reads_the_adapter_witness :
  library_calls
    (fst (on_train_end unit (Some "ckpt") None tt (adapted_model demo_args device_auto)))
  = [call_torch_load "ckpt/adapter_model.bin";
     call_set_peft_model_state_dict (adapted_model demo_args device_auto)
       "ckpt/adapter_model.bin"].
Proof.
  destruct (on_train_end_reads_the_adapter unit None tt
              (adapted_model demo_args device_auto)) as [_ H].
  pose proof (H "ckpt" (resumed_from demo_args "ckpt") adapter_world
                eq_refl eq_refl eq_refl eq_refl) as [_ E].
  rewrite E. reflexivity.
Defined.
